(** * HOLLY text-to-speech backends: cache-keyed generation wrapper

    A shallow embedding of the Python modules [holly_fish_voice],
    [holly_fish_voice_v2], [holly_fish_voice_cloud], [holly_gtts_voice]
    and [holly_piper_voice], and the properties of their cache layer and
    of their fallback policy.

    Conventions of the embedding:
    - a Python [str] is a list of Unicode code points ([pystr]);
    - [bytes] are lists of integers in [0, 256);
    - 32-bit words are integers with the wrap-around written out;
    - the cache directory is a finite map from entry names to regular
      files; the process owns the directory, so removing an entry
      always succeeds;
    - the third-party collaborators (libsndfile through [soundfile],
      the HTTP endpoint, the [piper] executable, the inference engine)
      are parameters of the model;
    - [print] appends an event to the world's output, and raises when
      standard output cannot encode the message. *)

From Stdlib Require Import ZArith List String Ascii Bool Lia.
From Stdlib Require Import Floats.SpecFloat.
From Stdlib Require Import Reals Lra.
From stdpp Require Import gmap strings list fin_maps.

Import ListNotations.
Local Open Scope Z_scope.

(* ===================================================================== *)
(** * Python strings and their UTF-8 encoding *)
(* ===================================================================== *)

(** A Python [str]: the sequence of its code points. *)
Definition pystr := list Z.

(** The code points of an ASCII literal. *)
Fixpoint str_of (s : string) : pystr :=
  match s with
  | EmptyString => []
  | String c r => Z.of_N (N_of_ascii c) :: str_of r
  end.

(** A code point that [str.encode('utf-8')] accepts: a Unicode scalar
    value (surrogates raise UnicodeEncodeError). *)
Definition scalar (c : Z) : Prop :=
  (0 <= c < 0xD800) \/ (0xE000 <= c < 0x110000).

Definition cont (x : Z) : Z := Z.lor 0x80 (Z.land x 0x3F).

Definition encode_cp (c : Z) : option (list Z) :=
  if c <? 0 then None
  else if c <? 0x80 then Some [c]
  else if c <? 0x800 then
    Some [Z.lor 0xC0 (Z.shiftr c 6); cont c]
  else if c <? 0x10000 then
    if (0xD800 <=? c) && (c <? 0xE000) then None
    else Some [Z.lor 0xE0 (Z.shiftr c 12); cont (Z.shiftr c 6); cont c]
  else if c <? 0x110000 then
    Some [Z.lor 0xF0 (Z.shiftr c 18); cont (Z.shiftr c 12);
          cont (Z.shiftr c 6); cont c]
  else None.

(** [text.encode('utf-8')]; [None] stands for UnicodeEncodeError. *)
Fixpoint encode_utf8 (s : pystr) : option (list Z) :=
  match s with
  | [] => Some []
  | c :: r =>
      match encode_cp c, encode_utf8 r with
      | Some b, Some bs => Some (b ++ bs)
      | _, _ => None
      end
  end.

(* ===================================================================== *)
(** * hashlib.md5 *)
(* ===================================================================== *)

Module MD5.

Definition w32 (x : Z) : Z := x mod 2 ^ 32.

Definition rotl32 (x c : Z) : Z :=
  w32 (Z.lor (Z.shiftl x c) (Z.shiftr x (32 - c))).

Definition not32 (x : Z) : Z := Z.lxor x 0xFFFFFFFF.

Definition S_table : list Z :=
  [7; 12; 17; 22; 7; 12; 17; 22; 7; 12; 17; 22; 7; 12; 17; 22;
   5;  9; 14; 20; 5;  9; 14; 20; 5;  9; 14; 20; 5;  9; 14; 20;
   4; 11; 16; 23; 4; 11; 16; 23; 4; 11; 16; 23; 4; 11; 16; 23;
   6; 10; 15; 21; 6; 10; 15; 21; 6; 10; 15; 21; 6; 10; 15; 21].

Definition K_table : list Z :=
  [0xd76aa478; 0xe8c7b756; 0x242070db; 0xc1bdceee;
   0xf57c0faf; 0x4787c62a; 0xa8304613; 0xfd469501;
   0x698098d8; 0x8b44f7af; 0xffff5bb1; 0x895cd7be;
   0x6b901122; 0xfd987193; 0xa679438e; 0x49b40821;
   0xf61e2562; 0xc040b340; 0x265e5a51; 0xe9b6c7aa;
   0xd62f105d; 0x02441453; 0xd8a1e681; 0xe7d3fbc8;
   0x21e1cde6; 0xc33707d6; 0xf4d50d87; 0x455a14ed;
   0xa9e3e905; 0xfcefa3f8; 0x676f02d9; 0x8d2a4c8a;
   0xfffa3942; 0x8771f681; 0x6d9d6122; 0xfde5380c;
   0xa4beea44; 0x4bdecfa9; 0xf6bb4b60; 0xbebfbc70;
   0x289b7ec6; 0xeaa127fa; 0xd4ef3085; 0x04881d05;
   0xd9d4d039; 0xe6db99e5; 0x1fa27cf8; 0xc4ac5665;
   0xf4292244; 0x432aff97; 0xab9423a7; 0xfc93a039;
   0x655b59c3; 0x8f0ccc92; 0xffeff47d; 0x85845dd1;
   0x6fa87e4f; 0xfe2ce6e0; 0xa3014314; 0x4e0811a1;
   0xf7537e82; 0xbd3af235; 0x2ad7d2bb; 0xeb86d391].

(** Little-endian encodings. *)
Fixpoint le_bytes (n : nat) (x : Z) : list Z :=
  match n with
  | O => []
  | S k => x mod 256 :: le_bytes k (x / 256)
  end.

Fixpoint le_word (bs : list Z) : Z :=
  match bs with
  | [] => 0
  | b :: r => b + 256 * le_word r
  end.

(** The message followed by 0x80, zeros up to 56 modulo 64, and the
    bit length on 64 bits. *)
Definition pad (msg : list Z) : list Z :=
  let len := Z.of_nat (List.length msg) in
  msg ++ [0x80] ++ repeat 0 (Z.to_nat ((55 - len) mod 64))
      ++ le_bytes 8 ((8 * len) mod 2 ^ 64).

(** The sixteen 32-bit words of a 64-byte block. *)
Fixpoint words (n : nat) (block : list Z) : list Z :=
  match n with
  | O => []
  | S k => le_word (firstn 4 block) :: words k (skipn 4 block)
  end.

Record state := St { sa : Z; sb : Z; sc : Z; sd : Z }.

Definition init : state :=
  St 0x67452301 0xefcdab89 0x98badcfe 0x10325476.

Definition step (M : list Z) (s : state) (i : nat) : state :=
  let '(St A B C D) := s in
  let iz := Z.of_nat i in
  let '(F, g) :=
    if iz <? 16 then
      (Z.lor (Z.land B C) (Z.land (not32 B) D), iz)
    else if iz <? 32 then
      (Z.lor (Z.land D B) (Z.land (not32 D) C), (5 * iz + 1) mod 16)
    else if iz <? 48 then
      (Z.lxor (Z.lxor B C) D, (3 * iz + 5) mod 16)
    else
      (Z.lxor C (Z.lor B (not32 D)), (7 * iz) mod 16) in
  let F' := w32 (F + A + nth i K_table 0 + nth (Z.to_nat g) M 0) in
  St D (w32 (B + rotl32 F' (nth i S_table 0))) B C.

Definition compress (s : state) (block : list Z) : state :=
  let M := words 16 block in
  let '(St A B C D) := fold_left (step M) (seq 0 64) s in
  St (w32 (sa s + A)) (w32 (sb s + B)) (w32 (sc s + C)) (w32 (sd s + D)).

Fixpoint blocks (n : nat) (s : state) (bs : list Z) : state :=
  match n with
  | O => s
  | S k => blocks k (compress s (firstn 64 bs)) (skipn 64 bs)
  end.

(** [hashlib.md5(msg).digest()] *)
Definition digest (msg : list Z) : list Z :=
  let p := pad msg in
  let '(St A B C D) := blocks (List.length p / 64)%nat init p in
  le_bytes 4 A ++ le_bytes 4 B ++ le_bytes 4 C ++ le_bytes 4 D.

Definition hex_digit (d : Z) : ascii :=
  if d <? 10 then ascii_of_N (Z.to_N (48 + d))
  else ascii_of_N (Z.to_N (87 + d)).

Fixpoint hex (bs : list Z) : string :=
  match bs with
  | [] => EmptyString
  | b :: r => String (hex_digit (b / 16)) (String (hex_digit (b mod 16)) (hex r))
  end.

(** [hashlib.md5(msg).hexdigest()] *)
Definition hexdigest (msg : list Z) : string := hex (digest msg).

End MD5.

(* ===================================================================== *)
(** * Python numbers: binary64 floats *)
(* ===================================================================== *)

Module Py.

Definition prec : Z := 53.
Definition emax : Z := 1024.

(** A Python [float]: an IEEE-754 binary64 value. *)
Definition float := spec_float.

(** [float(n)] for an [int] [n]. *)
Definition of_int (n : Z) : float := binary_normalize prec emax n 0 false.

(** [a / b] on two non-negative [int]s, [b] positive: the correctly
    rounded quotient (Python's true division of integers). *)
Definition truediv (a b : Z) : float :=
  match a, b with
  | Zpos _, Zpos _ =>
      let '(mz, ez, lz) := SFdiv_core_binary prec emax a 0 b 0 in
      binary_round_aux prec emax false mz ez lz
  | _, _ => S754_zero false
  end.

(** [n * x] for an [int] [n] and a [float] [x]. *)
Definition int_mul (n : Z) (x : float) : float :=
  SFmul prec emax (of_int n) x.

(** [int(x)]: truncation towards zero; [None] stands for the
    OverflowError / ValueError raised on an infinity or a NaN. *)
Definition int (x : float) : option Z :=
  match x with
  | S754_zero _ => Some 0
  | S754_finite s m e =>
      let v := if 0 <=? e then Zpos m * 2 ^ e else Zpos m / 2 ^ (- e) in
      Some (if s then - v else v)
  | _ => None
  end.

(** [round(x, 2)] on a non-negative [float]: the binary64 value
    nearest to the decimal obtained by rounding [x] half-to-even at
    two places. *)
Definition round2 (x : float) : float :=
  match x with
  | S754_finite false m e =>
      let n := Zpos m * 100 in
      let k :=
        if 0 <=? e then n * 2 ^ e
        else
          let d := 2 ^ (- e) in
          let q := n / d in
          let r := n mod d in
          match 2 * r ?= d with
          | Lt => q
          | Gt => q + 1
          | Eq => if Z.even q then q else q + 1
          end in
      truediv k 100
  | _ => x
  end.

(** [int(sample_rate * duration)] with [duration = len(text) / cps]. *)
Definition sample_count (sample_rate cps len : Z) : option Z :=
  let duration := truediv len cps in
  int (int_mul sample_rate duration).

End Py.

(* ===================================================================== *)
(** * The world of a backend process *)
(* ===================================================================== *)

(** Exceptions that the modelled code raises or meets. *)
Inductive exn : Type :=
| UnicodeEncodeError            (* str.encode or print on a surrogate *)
| OverflowError                 (* int() of an infinite float *)
| LibsndfileError               (* sf.read / sf.write refused the data *)
| OSError                       (* the file system refused an operation *)
| RequestException              (* requests.post raised (timeout, network) *)
| ApiError (status : Z)         (* Exception("Fish Audio API error: ...") *)
| SubprocessError               (* subprocess.run raised (missing binary) *)
| TimeoutExpired                (* subprocess.run reached its timeout *)
| PiperFailed                   (* Exception("Piper failed: ...") *)
| InferenceError                (* the inference engine raised *)
| AttributeError.               (* .astype on an object that has none *)

(** What the process prints, and the calls it makes to its external
    collaborators, in order. *)
Inductive event : Type :=
| CacheHit (cache_key : string)
| GeneratedCached
| Generating (text : pystr)     (* "Generating: {text[:50]}..." *)
| Generated
| Cached (cache_key : string)
| CacheSaveFailed (e : exn)
| GenerationFailed (e : exn)
| ApiKeyNotSet
| GeneratedFallback
| ReturningFallbackBeep
| CacheCleared
| HttpPost (text reference_id : pystr)
| RunPiper (stdin : list Z)
| EngineInference (text : pystr).

(** How the host answers the next attempt to write a cache file. *)
Inductive write_fault : Type :=
| WriteOk                       (* the file is written *)
| WriteRefused                  (* the file cannot be created *)
| WriteTorn (junk : list Z).    (* the write fails and leaves [junk] *)

(** [sys.stdout.errors], the error handler of standard output.  The
    stream can encode the fixed messages of the backends, which hold
    characters outside ASCII and Latin-1 (otherwise the constructor of
    a backend would already raise): it is a UTF-8 stream, or one whose
    handler never raises. *)
Inductive error_handler : Type :=
| Strict                        (* Python's default *)
| SurrogateEscape               (* the default under the C locale and in UTF-8 mode *)
| Lenient.                      (* replace, ignore, backslashreplace, surrogatepass, ... *)

Record world : Type := World {
  cache : gmap string (list Z);  (* entries of CACHE_DIR: name -> contents *)
  fault : write_fault;
  errors : error_handler;
  stdout : list event
}.

Inductive result (A : Type) : Type :=
| Ok (a : A)
| Exn (e : exn).
Arguments Ok {A} a.
Arguments Exn {A} e.

(** Computations of the process: state passing with exceptions. *)
Definition M (A : Type) : Type := world -> result A * world.

#[global] Instance M_ret : MRet M := fun A a w => (Ok a, w).

#[global] Instance M_bind : MBind M := fun A B f m w =>
  match m w with
  | (Ok a, w') => f a w'
  | (Exn e, w') => (Exn e, w')
  end.

Definition raise {A} (e : exn) : M A := fun w => (Exn e, w).

(** [try: body except Exception as e: handler e] *)
Definition try_except {A} (body : M A) (handler : exn -> M A) : M A :=
  fun w =>
    match body w with
    | (Ok a, w') => (Ok a, w')
    | (Exn e, w') => handler e w'
    end.

(** ** Standard output *)

(** Whether the encoder of standard output takes a code point: UTF-8
    refuses the surrogates, [surrogateescape] lets U+DC80..U+DCFF
    through as the bytes they stand for, and the other handlers
    substitute or drop what UTF-8 refuses. *)
Definition accepts (h : error_handler) (c : Z) : bool :=
  match h, encode_cp c with
  | _, Some _ => true
  | Strict, None => false
  | SurrogateEscape, None => (0xDC80 <=? c) && (c <=? 0xDCFF)
  | Lenient, None => true
  end.

Definition stdout_accepts (h : error_handler) (s : pystr) : bool :=
  forallb (accepts h) s.

(** The part of a message that comes from the request.  The rest of
    every message is fixed text, hexadecimal digits of a key, a number,
    or the [str()] of an exception, which for the exceptions of the
    interpreter is ASCII (a code point that could not be encoded is
    shown escaped); the messages of third-party exceptions are taken
    to be encodable as well. *)
Definition message_text (e : event) : pystr :=
  match e with
  | Generating text => text
  | _ => []
  end.

(** Records an event. *)
Definition emit (e : event) : M unit := fun w =>
  (Ok tt, World (cache w) (fault w) (errors w) (stdout w ++ [e])).

(** [print(message)]: the message is encoded as a whole before anything
    is written, so a refused code point raises UnicodeEncodeError with
    nothing printed. *)
Definition print (e : event) : M unit := fun w =>
  if stdout_accepts (errors w) (message_text e) then emit e w
  else (Exn UnicodeEncodeError, w).

(** A pure step that may raise. *)
Definition lift {A} (e : exn) (o : option A) : M A :=
  match o with
  | Some a => mret a
  | None => raise e
  end.

(** ** The file system seen through [pathlib] and [os] *)

(** [path.exists()] *)
Definition path_exists (name : string) : M bool := fun w =>
  (Ok (bool_decide (is_Some (cache w !! name))), w).

(** [path.unlink()] *)
Definition unlink (name : string) : M unit := fun w =>
  match cache w !! name with
  | Some _ => (Ok tt, World (delete name (cache w)) (fault w) (errors w) (stdout w))
  | None => (Exn OSError, w)
  end.

(** Whether [fnmatch] matches a name against the pattern [*.wav]. *)
Definition is_wav (name : string) : bool :=
  let n := String.length name in
  (4 <=? n)%nat && String.eqb (substring (n - 4) 4 name) ".wav".

(** [list(CACHE_DIR.glob("*.wav"))], each path with the contents of
    its file. *)
Definition glob_wav (dir : gmap string (list Z)) : list (string * list Z) :=
  map_to_list (filter (fun p : string * list Z => is_wav p.1) dir).

(** [f.stat().st_size] *)
Definition st_size (f : string * list Z) : Z := Z.of_nat (List.length f.2).

(** Python's [sum] over integers. *)
Definition py_sum (l : list Z) : Z := foldr Z.add 0 l.

(** [for x in l: body x] *)
Fixpoint for_each {A} (l : list A) (body : A -> M unit) : M unit :=
  match l with
  | [] => mret tt
  | x :: r => body x ;; for_each r body
  end.

(** ** soundfile and numpy *)

(** The audio samples of a backend, with the codec that [soundfile]
    applies to them.  [sf_encode audio rate] is the contents of the
    file that [sf.write] produces ([None]: libsndfile rejects the
    request); [sf_decode bytes] is what [sf.read] returns for a file
    with these contents ([None]: it raises). *)
Class Audio (sample : Type) : Type := {
  np_zero : sample;
  sf_encode : list sample -> Z -> option (list Z);
  sf_decode : list Z -> option (list sample * Z)
}.

Section SoundFile.
Context {sample : Type} `{Audio sample}.

(** [np.zeros(n, dtype=np.float32)] *)
Definition np_zeros (n : Z) : list sample := repeat np_zero (Z.to_nat n).

(** [sf.read(path)] *)
Definition sf_read (name : string) : M (list sample * Z) := fun w =>
  match cache w !! name with
  | None => (Exn LibsndfileError, w)
  | Some bytes =>
      match sf_decode bytes with
      | Some r => (Ok r, w)
      | None => (Exn LibsndfileError, w)
      end
  end.

(** [sf.write(path, audio, sample_rate)] *)
Definition sf_write (name : string) (audio : list sample) (sample_rate : Z)
  : M unit := fun w =>
  match sf_encode audio sample_rate with
  | None => (Exn LibsndfileError, w)
  | Some bytes =>
      match fault w with
      | WriteOk =>
          (Ok tt, World (<[name := bytes]> (cache w)) (fault w) (errors w) (stdout w))
      | WriteRefused => (Exn OSError, w)
      | WriteTorn junk =>
          (Exn OSError, World (<[name := junk]> (cache w)) (fault w) (errors w)
                         (stdout w))
      end
  end.

End SoundFile.

(** [np.zeros(int(sample_rate * duration))] with
    [duration = len(text) / cps]. *)
Definition silence {sample} `{Audio sample} (sample_rate cps : Z) (text : pystr)
  : M (list sample) :=
  n ← lift OverflowError (Py.sample_count sample_rate cps (Z.of_nat (List.length text)));
  mret (np_zeros n).

(** The value of [cache_key] after the "check cache" block: bound only
    when [use_cache] holds. *)
Definition when_cached {A} (use_cache : bool) (m : M A) : M (option A) :=
  if use_cache then a ← m; mret (Some a) else mret None.

(* ===================================================================== *)
(** * holly_fish_voice.py *)
(* ===================================================================== *)

(** The dictionary returned by [get_cache_stats]. *)
Record cache_stats : Type := CacheStats {
  cached_phrases : nat;
  total_size_mb : Py.float;
  cache_dir : string
}.

Module HollyFishVoice.

Definition CACHE_DIR : string := "/tmp/holly_fish_cache".

(** [hashlib.md5(f"{text}:{voice}".encode('utf-8')).hexdigest()];
    [None] when the encoding raises. *)
Definition _get_cache_key (text voice : pystr) : option string :=
  MD5.hexdigest <$> encode_utf8 (text ++ str_of ":" ++ voice).

(** [CACHE_DIR / f"{cache_key}.wav"], as the name of the entry inside
    CACHE_DIR. *)
Definition _get_cache_path (cache_key : string) : string :=
  (cache_key +:+ ".wav")%string.

Section Methods.
Context {sample : Type} `{Audio sample}.

Definition _load_from_cache (cache_key : string) : M (option (list sample)) :=
  let cache_path := _get_cache_path cache_key in
  present ← path_exists cache_path;
  if (present : bool) then
    try_except
      ('(audio, sr) ← sf_read cache_path;
       print (CacheHit cache_key);;
       mret (Some audio))
      (fun _ => mret None)
  else mret None.

Definition _save_to_cache (cache_key : string) (audio : list sample)
    (sample_rate : Z) : M unit :=
  try_except
    (let cache_path := _get_cache_path cache_key in
     sf_write cache_path audio sample_rate;;
     print (Cached cache_key))
    (fun e => print (CacheSaveFailed e)).

Definition generate (text voice : pystr) (use_cache : bool)
  : M (list sample * Z) :=
  (* Check cache first *)
  cache_key ← when_cached use_cache
                (lift UnicodeEncodeError (_get_cache_key text voice));
  cached_audio ← match cache_key with
                 | Some k => _load_from_cache k
                 | None => mret None
                 end;
  match cached_audio with
  | Some a => print GeneratedCached;; mret (a, 24000)
  | None =>
      (* Generate new audio *)
      print (Generating (take 50 text));;
      try_except
        (let sample_rate := 24000 in
         (* Placeholder: silence, ~20 chars/second *)
         audio ← silence sample_rate 20 text;
         print Generated;;
         match cache_key with
         | Some k => _save_to_cache k audio sample_rate
         | None => mret tt
         end;;
         mret (audio, sample_rate))
        (fun e => print (GenerationFailed e);; raise e)
  end.

End Methods.

(** The local [total_size] of [get_cache_stats]. *)
Definition total_size (dir : gmap string (list Z)) : Z :=
  py_sum (st_size <$> glob_wav dir).

Definition get_cache_stats : M cache_stats := fun w =>
  let cache_files := glob_wav (cache w) in
  let total_size := py_sum (st_size <$> cache_files) in
  (Ok {| cached_phrases := List.length cache_files;
         total_size_mb := Py.round2 (Py.truediv total_size (1024 * 1024));
         cache_dir := CACHE_DIR |}, w).

Definition clear_cache : M unit :=
  cache_files ← (fun w => (Ok (glob_wav (cache w)), w));
  for_each cache_files (fun cache_file => unlink cache_file.1);;
  print CacheCleared.

End HollyFishVoice.

(* ===================================================================== *)
(** * holly_fish_voice_cloud.py *)
(* ===================================================================== *)

(** What [requests.post] does: it raises, or it returns a response. *)
Inductive http_result : Type :=
| HttpRaises
| HttpResponse (status_code : Z) (content : list Z).

Module HollyFishVoiceCloud.

(** [_get_cache_key], [_load_from_cache] and [_save_to_cache] have
    the same text as in holly_fish_voice.py. *)
Definition _get_cache_key := HollyFishVoice._get_cache_key.

Section Methods.
Context {sample : Type} `{Audio sample}.
(** [self.api_key], [self.voice_id] and the remote endpoint. *)
Variable api_key : option pystr.
Variable voice_id : pystr.
Variable requests_post : pystr -> pystr -> http_result.

(** [not self.api_key] *)
Definition no_api_key : bool :=
  match api_key with
  | Some (_ :: _) => false
  | _ => true
  end.

Definition generate (text voice : pystr) (use_cache : bool)
  : M (list sample * Z) :=
  cache_key ← when_cached use_cache
                (lift UnicodeEncodeError (_get_cache_key text voice));
  cached_audio ← match cache_key with
                 | Some k => HollyFishVoice._load_from_cache k
                 | None => mret None
                 end;
  match cached_audio with
  | Some a => print GeneratedCached;; mret (a, 24000)
  | None =>
      print (Generating (take 50 text));;
      try_except
        (if no_api_key then
           (* Fallback: silence with estimated duration *)
           print ApiKeyNotSet;;
           let sample_rate := 24000 in
           audio ← silence sample_rate 20 text;
           print GeneratedFallback;;
           mret (audio, sample_rate)
         else
           emit (HttpPost text voice_id);;
           match requests_post text voice_id with
           | HttpRaises => raise RequestException
           | HttpResponse status_code content =>
               if negb (status_code =? 200) then raise (ApiError status_code)
               else
                 (* the body goes through a temporary file and sf.read *)
                 '(audio, sample_rate) ← lift LibsndfileError (sf_decode content);
                 print Generated;;
                 match cache_key with
                 | Some k => HollyFishVoice._save_to_cache k audio sample_rate
                 | None => mret tt
                 end;;
                 mret (audio, sample_rate)
           end)
        (fun e =>
           print (GenerationFailed e);;
           (* Return silence as fallback *)
           let sample_rate := 24000 in
           audio ← silence sample_rate 20 text;
           mret (audio, sample_rate))
  end.

End Methods.

End HollyFishVoiceCloud.

(* ===================================================================== *)
(** * holly_gtts_voice.py *)
(* ===================================================================== *)

Module HollyGTTSVoice.

(** [hashlib.md5(text.encode('utf-8')).hexdigest()] *)
Definition _get_cache_key (text : pystr) : option string :=
  MD5.hexdigest <$> encode_utf8 text.

(** The key under which [generate(text, voice, use_cache=True)] looks
    up and stores its audio: [cache_key = self._get_cache_key(text)]. *)
Definition request_key (text voice : pystr) : option string :=
  _get_cache_key text.

End HollyGTTSVoice.

(* ===================================================================== *)
(** * holly_piper_voice.py *)
(* ===================================================================== *)

(** What [subprocess.run(["piper", ...], timeout=30)] does: it raises
    before the program ran, it reaches the timeout, or the program
    exits and leaves the output file with some contents. *)
Inductive piper_result : Type :=
| PiperNotRun
| PiperTimeout
| PiperExit (returncode : Z) (output_file : list Z).

Module HollyPiperVoice.

Definition _get_cache_key (text : pystr) : option string :=
  MD5.hexdigest <$> encode_utf8 text.

Definition request_key (text voice : pystr) : option string :=
  _get_cache_key text.

Section Methods.
Context {sample : Type} `{Audio sample}.
(** [self.model_path] and the [piper] executable. *)
Variable model_path : option string.
Variable subprocess_run : option string -> list Z -> piper_result.

Definition generate (text voice : pystr) (use_cache : bool)
  : M (list sample * Z) :=
  cache_key ← when_cached use_cache
                (lift UnicodeEncodeError (_get_cache_key text));
  cached_audio ← match cache_key with
                 | Some k => HollyFishVoice._load_from_cache k
                 | None => mret None
                 end;
  match cached_audio with
  | Some a => print GeneratedCached;; mret (a, 22050)
  | None =>
      print (Generating (take 50 text));;
      try_except
        (input ← lift UnicodeEncodeError (encode_utf8 text);
         emit (RunPiper input);;
         match subprocess_run model_path input with
         | PiperNotRun => raise SubprocessError
         | PiperTimeout => raise TimeoutExpired
         | PiperExit returncode output_file =>
             if negb (returncode =? 0) then raise PiperFailed
             else
               '(audio, sample_rate) ← lift LibsndfileError (sf_decode output_file);
               print Generated;;
               match cache_key with
               | Some k => HollyFishVoice._save_to_cache k audio sample_rate
               | None => mret tt
               end;;
               mret (audio, sample_rate)
         end)
        (fun e =>
           print (GenerationFailed e);;
           (* Return silence fallback *)
           let sample_rate := 22050 in
           audio ← silence sample_rate 15 text;
           mret (audio, sample_rate))
  end.

End Methods.

End HollyPiperVoice.

(* ===================================================================== *)
(** * holly_fish_voice_v2.py *)
(* ===================================================================== *)

(** A Python object that may or may not be an array of samples (a
    tensor or an ndarray); [.astype] raises on anything else. *)
Definition pyobj : Type := option (list R).

(** The three shapes of result that [generate] looks for. *)
Inductive engine_result : Type :=
| HasAudioAttr (audio : pyobj)      (* hasattr(result, 'audio') *)
| DictWithAudio (audio : pyobj)     (* a dict with the key 'audio' *)
| Plain (result : pyobj).           (* anything else *)

Module HollyFishVoiceV2.

Definition _get_cache_key := HollyFishVoice._get_cache_key.

(** [np.linspace(start, stop, num)] *)
Definition np_linspace (start stop : R) (num : nat) : list R :=
  let step := ((stop - start) / INR (num - 1))%R in
  (fun i => (start + INR i * step)%R) <$> seq 0 num.

(** The tone of the except branch.  Sample values are real numbers:
    the rounding of numpy's float arithmetic is not modelled. *)
Definition fallback_beep : list R :=
  let sample_rate := 24000 in
  let duration := Py.truediv 1 2 in
  let num := match Py.int (Py.int_mul sample_rate duration) with
             | Some n => Z.to_nat n
             | None => O
             end in
  let t := np_linspace 0 0.5 num in
  (fun ti => (sin (2 * PI * 440 * ti) * 0.3)%R) <$> t.

Section Methods.
Context `{Audio R}.
(** [self.reference_audio] and [self.engine.inference]; [None] when
    the engine raises. *)
Variable reference_audio : option (list R).
Variable engine_inference : pystr -> option (list R) -> option engine_result.

Definition generate (text voice : pystr) (use_cache : bool)
  : M (list R * Z) :=
  cache_key ← when_cached use_cache
                (lift UnicodeEncodeError (_get_cache_key text voice));
  cached_audio ← match cache_key with
                 | Some k => HollyFishVoice._load_from_cache k
                 | None => mret None
                 end;
  match cached_audio with
  | Some a => print GeneratedCached;; mret (a, 24000)
  | None =>
      print (Generating (take 50 text));;
      try_except
        (emit (EngineInference text);;
         result ← lift InferenceError (engine_inference text reference_audio);
         (* Extract audio from result *)
         let audio := match result with
                      | HasAudioAttr a => a
                      | DictWithAudio a => a
                      | Plain r => r
                      end in
         (* audio.astype(np.float32) *)
         audio ← lift AttributeError audio;
         let sample_rate := 24000 in
         print Generated;;
         match cache_key with
         | Some k => HollyFishVoice._save_to_cache k audio sample_rate
         | None => mret tt
         end;;
         mret (audio, sample_rate))
        (fun e =>
           print (GenerationFailed e);;
           (* Return short beep as fallback *)
           print ReturningFallbackBeep;;
           let sample_rate := 24000 in
           mret (fallback_beep, sample_rate))
  end.

End Methods.

End HollyFishVoiceV2.

(* ===================================================================== *)
(** * Concrete collaborators, to run the model *)
(* ===================================================================== *)

(** A small executable stand-in for libsndfile on binary64 samples:
    a four-byte sample rate followed by 16-bit little-endian PCM. *)
Module ToyWav.

Definition quantize (x : Py.float) : Z :=
  match Py.int (Py.int_mul 32767 x) with
  | Some v => Z.max (-32768) (Z.min 32767 v)
  | None => 0
  end.

Definition encode (audio : list Py.float) (sample_rate : Z) : option (list Z) :=
  if (0 <? sample_rate) && (sample_rate <? 2 ^ 32) then
    Some (MD5.le_bytes 4 sample_rate
          ++ flat_map (fun x => MD5.le_bytes 2 (quantize x mod 2 ^ 16)) audio)
  else None.

Definition dequantize (lo hi : Z) : Py.float :=
  let u := lo + 256 * hi in
  let v := if u <? 2 ^ 15 then u else u - 2 ^ 16 in
  SFdiv Py.prec Py.emax (Py.of_int v) (Py.of_int 32768).

Fixpoint frames (bytes : list Z) : option (list Py.float) :=
  match bytes with
  | [] => Some []
  | lo :: hi :: r => cons (dequantize lo hi) <$> frames r
  | _ => None
  end.

Definition decode (bytes : list Z) : option (list Py.float * Z) :=
  match bytes with
  | b0 :: b1 :: b2 :: b3 :: r =>
      let sample_rate := MD5.le_word [b0; b1; b2; b3] in
      if sample_rate =? 0 then None
      else (fun audio => (audio, sample_rate)) <$> frames r
  | _ => None
  end.

#[global] Instance audio : Audio Py.float :=
  {| np_zero := S754_zero false; sf_encode := encode; sf_decode := decode |}.

End ToyWav.

(** A host on which libsndfile refuses every request, for backends
    whose samples are real numbers. *)
#[global] Instance no_soundfile : Audio R :=
  {| np_zero := 0%R; sf_encode := fun _ _ => None; sf_decode := fun _ => None |}.

(** The world of a process that just started: empty cache directory,
    working disk, standard output with Python's default handler and
    nothing printed yet. *)
Definition initial_world : world := World ∅ WriteOk Strict [].

(** The name of a common phrase of holly_fish_voice.py. *)
Definition phrase_error : pystr := str_of "I encountered an error.".

(** ** Notions used to state the properties *)

(** The request reaches synthesis: caching is off, or the key
    [cache_key] of the request misses in the cache of [w]. *)
Definition reaches_synthesis {sample : Type} `{Audio sample}
    (cache_key : option string) (use_cache : bool) (w : world) : Prop :=
  use_cache = false
  \/ (use_cache = true
      /\ exists k, cache_key = Some k
           /\ HollyFishVoice._load_from_cache (sample := sample) k w = (Ok None, w)).

(** The events printed between two worlds. *)
Definition printed (w w' : world) (evs : list event) : Prop :=
  stdout w' = stdout w ++ evs.

(** A name ends in [.wav]. *)
Definition ends_in_wav (name : string) : Prop :=
  exists stem : string, name = (stem +:+ ".wav")%string.

(** The codec stores and gives back [audio] at [sample_rate], each
    sample within [close] of the original. *)
Definition codec_preserves {sample : Type} `{Audio sample}
    (close : sample -> sample -> Prop) (audio : list sample) (sample_rate : Z)
    (bytes : list Z) (audio' : list sample) : Prop :=
  sf_encode audio sample_rate = Some bytes
  /\ sf_decode bytes = Some (audio', sample_rate)
  /\ Forall2 close audio audio'.

(** Checks a decidable property on [n] consecutive integers from [lo]. *)
Fixpoint all_from (check : Z -> bool) (n : nat) (lo : Z) : bool :=
  match n with
  | O => true
  | S k => if check lo then all_from check k (lo + 1) else false
  end.

(** ** Shapes of strings *)

(** One of the characters [0-9a-f]. *)
Definition is_lower_hex (c : ascii) : bool :=
  let n := N_of_ascii c in
  ((48 <=? n) && (n <=? 57) || (97 <=? n) && (n <=? 102))%N.

(** Every character of a string passes a test. *)
Fixpoint all_chars (p : ascii -> bool) (s : string) : bool :=
  match s with
  | EmptyString => true
  | String c r => p c && all_chars p r
  end.

(* ===================================================================== *)
(** * Start-up of holly_piper_voice.py *)
(* ===================================================================== *)

(** What [urllib.request.urlretrieve(url, filename)] does: it writes
    the file, or it raises, possibly leaving a partial file behind. *)
Inductive fetch : Type :=
| Fetched (data : list Z)
| FetchFailed (left_behind : option (list Z)).

(** What the start-up of the piper backend prints and fetches. *)
Inductive startup_event : Type :=
| Initializing
| ModelAlreadyDownloaded
| DownloadingModel
| DownloadingVoiceModel
| UrlRetrieve (url : string)
| DownloadingConfig
| ModelDownloaded
| ModelDownloadFailed (e : exn)
| Ready
| CacheLocation (cache_dir : string).

(** The host at start-up: the entries of PIPER_MODEL_DIR and what was
    printed and fetched so far. *)
Record piper_host : Type := PiperHost {
  model_dir : gmap string (list Z);
  startup_log : list startup_event
}.

(** The attributes of a [HollyPiperVoice] object. *)
Record piper_voice : Type := PiperVoice {
  device : string;
  model_path : option string
}.

Module PiperStartup.

Definition CACHE_DIR : string := "/tmp/holly_piper_cache".
Definition PIPER_MODEL_DIR : string := "/tmp/piper_models".
Definition HOLLY_VOICE_MODEL : string := "en_US-amy-medium".

(** The names of the two files inside PIPER_MODEL_DIR. *)
Definition model_file : string := (HOLLY_VOICE_MODEL +:+ ".onnx")%string.
Definition config_file : string := (HOLLY_VOICE_MODEL +:+ ".onnx.json")%string.

Definition base_url : string :=
  ("https://github.com/rhasspy/piper/releases/download/v1.2.0/"
     +:+ HOLLY_VOICE_MODEL +:+ ".onnx")%string.
Definition config_url : string := (base_url +:+ ".json")%string.

(** [str(PIPER_MODEL_DIR / model_file)] *)
Definition model_file_path : string := (PIPER_MODEL_DIR +:+ "/" +:+ model_file)%string.

Definition log (e : startup_event) (h : piper_host) : piper_host :=
  PiperHost (model_dir h) (startup_log h ++ [e]).

Section Network.
(** The answer of the network to each URL. *)
Variable network : string -> fetch.

Definition urlretrieve (url name : string) (h : piper_host)
  : result unit * piper_host :=
  let h := log (UrlRetrieve url) h in
  match network url with
  | Fetched data =>
      (Ok tt, PiperHost (<[name := data]> (model_dir h)) (startup_log h))
  | FetchFailed None => (Exn OSError, h)
  | FetchFailed (Some part) =>
      (Exn OSError, PiperHost (<[name := part]> (model_dir h)) (startup_log h))
  end.

(** [_download_model]: the value left in [self.model_path], and the
    host afterwards. *)
Definition _download_model (h : piper_host) : option string * piper_host :=
  if bool_decide (is_Some (model_dir h !! model_file))
     && bool_decide (is_Some (model_dir h !! config_file))
  then (Some model_file_path, log ModelAlreadyDownloaded h)
  else
    let h := log DownloadingModel h in
    (* try: *)
    let h := log DownloadingVoiceModel h in
    match urlretrieve base_url model_file h with
    | (Exn e, h) => (None, log (ModelDownloadFailed e) h)
    | (Ok _, h) =>
        let h := log DownloadingConfig h in
        match urlretrieve config_url config_file h with
        | (Exn e, h) => (None, log (ModelDownloadFailed e) h)
        | (Ok _, h) => (Some model_file_path, log ModelDownloaded h)
        end
    end.

(** [HollyPiperVoice.__init__] *)
Definition __init__ (h : piper_host) : piper_voice * piper_host :=
  let h := log Initializing h in
  let '(path, h) := _download_model h in
  (PiperVoice "cpu" path, log (CacheLocation CACHE_DIR) (log Ready h)).

End Network.

(** The module of the backend in a running process: the global
    [_holly_voice_instance] and the host. *)
Record process : Type := Process {
  _holly_voice_instance : option piper_voice;
  host : piper_host
}.

(** [get_holly_voice()], on a network that may differ from call to
    call. *)
Definition get_holly_voice (network : string -> fetch) (p : process)
  : piper_voice * process :=
  match _holly_voice_instance p with
  | Some v => (v, p)
  | None =>
      let '(v, h) := __init__ network (host p) in
      (v, Process (Some v) h)
  end.

End PiperStartup.

(* ===================================================================== *)
(** * app.py over holly_fish_voice.py *)
(* ===================================================================== *)

Module App.

(** The attributes of a [HollyFishVoice] object of holly_fish_voice.py. *)
Record voice : Type := Voice {
  model : option unit;
  device : string
}.

(** What the start-up and the handlers print. *)
Inductive console_event : Type :=
| FishInitializing
| ModelLoaded
| VoiceHolly
| FishReady (device : string)
| CacheAt (cache_dir : string)
| ApiGenerated
| ApiGenerationFailed.

(** The body of [POST /generate] after validation by the framework. *)
Record tts_request : Type := TTSRequest {
  text : pystr;
  voice_field : option pystr;       (* [voice: Optional[str] = "holly"] *)
  use_cache : option bool           (* [use_cache: Optional[bool] = True] *)
}.

(** The constraints [min_length=1, max_length=5000] on [text]. *)
Definition valid (r : tts_request) : bool :=
  (1 <=? List.length (text r))%nat && (List.length (text r) <=? 5000)%nat.

(** What a handler can raise. *)
Inductive app_exn : Type :=
| Backend (e : exn)
| ZeroDivisionError.

Inductive response : Type :=
| Health (status : string) (model_loaded : bool) (dev : string)
| Wav (content : list Z) (x_sample_rate : Z) (x_audio_length : Py.float)
| Stats (s : cache_stats)
| Cleared (success : bool)
| HTTPException (status_code : Z) (detail : app_exn).

(** The process: the global [holly_voice] of app.py, the global
    [_holly_voice_instance] of holly_fish_voice.py, the world of the
    backend and the console of the service. *)
Record server : Type := Server {
  holly_voice : option voice;
  _holly_voice_instance : option voice;
  backend : world;
  console : list console_event
}.

Definition say (e : console_event) (s : server) : server :=
  Server (holly_voice s) (_holly_voice_instance s) (backend s) (console s ++ [e]).

Section Host.
(** [torch.cuda.is_available()] behind [import torch]; [None] when
    either raises. *)
Variable torch_cuda : option bool.

(** [HollyFishVoice._check_cuda] *)
Definition _check_cuda : bool :=
  match torch_cuda with
  | Some available => available
  | None => false
  end.

(** [HollyFishVoice.__init__], with [_load_model] in line. *)
Definition __init__ (s : server) : voice * server :=
  let s := say FishInitializing s in
  let dev : string := if _check_cuda then "cuda" else "cpu" in
  let s := say VoiceHolly (say ModelLoaded s) in
  let s := say (CacheAt HollyFishVoice.CACHE_DIR) (say (FishReady dev) s) in
  (Voice None dev, s).

(** [get_holly_voice()] of holly_fish_voice.py *)
Definition get_holly_voice (s : server) : voice * server :=
  match _holly_voice_instance s with
  | Some v => (v, s)
  | None =>
      let '(v, s) := __init__ s in
      (v, Server (holly_voice s) (Some v) (backend s) (console s))
  end.

(** [get_generator()] of app.py *)
Definition get_generator (s : server) : voice * server :=
  match holly_voice s with
  | Some v => (v, s)
  | None =>
      let '(v, s) := get_holly_voice s in
      (v, Server (Some v) (_holly_voice_instance s) (backend s) (console s))
  end.

(** [GET /health] *)
Definition health_check (s : server) : response * server :=
  let '(generator, s) := get_generator s in
  (Health "healthy" true (device generator), s).

(** The [voice] that reaches the f-string of [_get_cache_key]: a null
    field is formatted as the text None. *)
Definition voice_text (v : option pystr) : pystr :=
  match v with
  | Some v => v
  | None => str_of "None"
  end.

(** [if use_cache:] on an optional boolean. *)
Definition truthy (b : option bool) : bool :=
  match b with
  | Some b => b
  | None => false
  end.

Section Handlers.
Context {sample : Type} `{Audio sample}.

(** [POST /generate]; the header with the elapsed time is left out. *)
Definition generate_tts (request : tts_request) (s : server) : response * server :=
  let '(generator, s) := get_generator s in
  let '(r, w) := HollyFishVoice.generate (sample := sample) (text request)
                   (voice_text (voice_field request))
                   (truthy (use_cache request)) (backend s) in
  let s := Server (holly_voice s) (_holly_voice_instance s) w (console s) in
  match r with
  | Exn e => (HTTPException 500 (Backend e), say ApiGenerationFailed s)
  | Ok (audio, sample_rate) =>
      (* sf.write(buffer, audio, sample_rate, format='WAV', subtype='PCM_16') *)
      match sf_encode audio sample_rate with
      | None => (HTTPException 500 (Backend LibsndfileError), say ApiGenerationFailed s)
      | Some wav_bytes =>
          if sample_rate =? 0
          then (HTTPException 500 ZeroDivisionError, say ApiGenerationFailed s)
          else
            (Wav wav_bytes sample_rate
               (Py.truediv (Z.of_nat (List.length audio)) sample_rate),
             say ApiGenerated s)
      end
  end.

End Handlers.

(** [GET /cache/stats] *)
Definition cache_stats (s : server) : response * server :=
  let '(generator, s) := get_generator s in
  match HollyFishVoice.get_cache_stats (backend s) with
  | (Ok stats, w) =>
      (Stats stats, Server (holly_voice s) (_holly_voice_instance s) w (console s))
  | (Exn e, w) =>
      (HTTPException 500 (Backend e),
       Server (holly_voice s) (_holly_voice_instance s) w (console s))
  end.

(** [POST /cache/clear] *)
Definition clear_cache (s : server) : response * server :=
  let '(generator, s) := get_generator s in
  match HollyFishVoice.clear_cache (backend s) with
  | (Ok _, w) =>
      (Cleared true, Server (holly_voice s) (_holly_voice_instance s) w (console s))
  | (Exn e, w) =>
      (HTTPException 500 (Backend e),
       Server (holly_voice s) (_holly_voice_instance s) w (console s))
  end.

End Host.

End App.

(* ===================================================================== *)
(** * [generate] of holly_gtts_voice.py *)
(* ===================================================================== *)

(** numpy's float32: IEEE-754 binary32. *)
Module F32.

Definition prec : Z := 24.
Definition emax : Z := 128.

(** The float32 nearest to an integer. *)
Definition of_int (n : Z) : spec_float := binary_normalize prec emax n 0 false.

Definition add (x y : spec_float) : spec_float := SFadd prec emax x y.
Definition mul (x y : spec_float) : spec_float := SFmul prec emax x y.
Definition div (x y : spec_float) : spec_float := SFdiv prec emax x y.

End F32.

(** A [pydub.AudioSegment] decoded from MP3, which has one or two
    channels: its frame rate and its integer samples, by frame. *)
Inductive audio_segment : Type :=
| Mono (frame_rate : Z) (samples : list Z)
| Stereo (frame_rate : Z) (frames : list (Z * Z)).

Module GTTS.

(** One entry of [np.array(..., dtype=np.float32) / 32768.0]. *)
Definition normalize (v : Z) : spec_float :=
  F32.div (F32.of_int v) (F32.of_int 32768).

(** One row of [samples.reshape((-1, 2)).mean(axis=1)]. *)
Definition mean2 (l r : spec_float) : spec_float :=
  F32.div (F32.add l r) (F32.of_int 2).

(** The pydub branch: the samples normalised to [-1, 1], two channels
    averaged to one, with the frame rate of the segment. *)
Definition from_segment (sound : audio_segment) : list spec_float * Z :=
  match sound with
  | Mono frame_rate samples => (normalize <$> samples, frame_rate)
  | Stereo frame_rate frames =>
      ((fun f : Z * Z => mean2 (normalize f.1) (normalize f.2)) <$> frames,
       frame_rate)
  end.

Section Methods.
Context `{Audio spec_float}.
(** [gTTS(text=text, lang='en', slow=False)] followed by [tts.save]:
    the bytes of the MP3 file, or what was raised; and
    [AudioSegment.from_mp3] on such a file. *)
Variable gtts_save : pystr -> result (list Z).
Variable from_mp3 : list Z -> result audio_segment.

Definition generate (text voice : pystr) (use_cache : bool)
  : M (list spec_float * Z) :=
  cache_key ← when_cached use_cache
                (lift UnicodeEncodeError (HollyGTTSVoice._get_cache_key text));
  cached_audio ← match cache_key with
                 | Some k => HollyFishVoice._load_from_cache k
                 | None => mret None
                 end;
  match cached_audio with
  | Some a => print GeneratedCached;; mret (a, 24000)
  | None =>
      print (Generating (take 50 text));;
      try_except
        (mp3 ← (fun w => (gtts_save text, w));
         '(audio, sample_rate) ←
           try_except
             (lift LibsndfileError (sf_decode mp3))
             (fun _ =>
                (* If soundfile can't read MP3, use pydub as fallback *)
                sound ← (fun w => (from_mp3 mp3, w));
                mret (from_segment sound));
         print Generated;;
         match cache_key with
         | Some k => HollyFishVoice._save_to_cache k audio sample_rate
         | None => mret tt
         end;;
         mret (audio, sample_rate))
        (fun e =>
           print (GenerationFailed e);;
           (* Return silence fallback *)
           let sample_rate := 24000 in
           audio ← silence sample_rate 15 text;
           mret (audio, sample_rate))
  end.

End Methods.

End GTTS.

(* ===================================================================== *)
(** * Start-up of holly_fish_voice_v2.py *)
(* ===================================================================== *)

(** A loaded [TTSInferenceEngine]: its [inference] method, as
    [generate] uses it. *)
Definition engine : Type := pystr -> option (list R) -> option engine_result.

Module FishV2Startup.

(** The attributes of a [HollyFishVoice] object of
    holly_fish_voice_v2.py. *)
Record voice : Type := Voice {
  device : string;
  llama_checkpoint : string;
  decoder_checkpoint : string;
  the_engine : engine;
  reference_audio : option (list R)
}.

Inductive startup_event : Type :=
| InitializingReal
| DeviceIs (device : string)
| LoadingModels
| LoadEngine (llama_checkpoint decoder_checkpoint device : string)
| ModelsLoaded
| LoadFailed
| FallingBackToDownload
| DownloadingFromHub
| SnapshotDownload (repo_id local_dir : string)
| ModelsDownloaded
| LoadedReference (name : string)
| NoReferenceAudio
| AddReferenceHint
| Ready
| CacheLocation (cache_dir : string)
| ReferenceIs (present : bool).

(** The process at start-up: whether the checkpoints were downloaded,
    the listing of REF_AUDIO_DIR in the order the system gives it, the
    global [_holly_voice_instance], and what was printed and called. *)
Record process : Type := Process {
  downloaded : bool;
  ref_audio_dir : list (string * list Z);
  _holly_voice_instance : option voice;
  startup_log : list startup_event
}.

Definition log (e : startup_event) (p : process) : process :=
  Process (downloaded p) (ref_audio_dir p) (_holly_voice_instance p)
          (startup_log p ++ [e]).

Definition DEFAULT_CHECKPOINT : string := "fishaudio/fish-speech-1.5".
Definition LOCAL_CHECKPOINT : string := "./checkpoints/fish-speech-1.5".

Section Host.
Context `{Audio R}.
(** [torch.cuda.is_available()], the two environment variables, the
    constructor of the engine (which sees whether the checkpoints were
    downloaded; [None] when it raises) and [snapshot_download] (false
    when it raises). *)
Variable cuda_available : bool.
Variables (LLAMA_CHECKPOINT DECODER_CHECKPOINT : option string).
Variable load_engine : string -> string -> string -> bool -> option engine.
Variable snapshot_download : bool.

(** [os.getenv(name, default)] *)
Definition getenv (value : option string) (default : string) : string :=
  match value with
  | Some v => v
  | None => default
  end.

(** [TTSInferenceEngine(llama_checkpoint_path=..., ...)] *)
Definition TTSInferenceEngine (llama decoder dev : string) (p : process)
  : result engine * process :=
  let p := log (LoadEngine llama decoder dev) p in
  match load_engine llama decoder dev (downloaded p) with
  | Some e => (Ok e, p)
  | None => (Exn InferenceError, p)
  end.

(** [_download_models]: on success both checkpoint paths become the
    local directory. *)
Definition _download_models (p : process) : result unit * process :=
  let p := log DownloadingFromHub p in
  let p := log (SnapshotDownload DEFAULT_CHECKPOINT LOCAL_CHECKPOINT) p in
  if snapshot_download
  then (Ok tt,
        log ModelsDownloaded
          (Process true (ref_audio_dir p) (_holly_voice_instance p) (startup_log p)))
  else (Exn OSError, p).

(** [_load_reference_audio]: the first [*.wav] of the listing, read
    with soundfile outside any [try]. *)
Definition _load_reference_audio (p : process) : result (option (list R)) * process :=
  match filter (fun f : string * list Z => is_wav f.1) (ref_audio_dir p) with
  | (name, bytes) :: _ =>
      match sf_decode bytes with
      | Some (audio, sr) => (Ok (Some audio), log (LoadedReference name) p)
      | None => (Exn LibsndfileError, p)
      end
  | [] => (Ok None, log AddReferenceHint (log NoReferenceAudio p))
  end.

(** [HollyFishVoice.__init__] *)
Definition __init__ (p : process) : result voice * process :=
  let p := log InitializingReal p in
  let dev : string := if cuda_available then "cuda" else "cpu" in
  let p := log (DeviceIs dev) p in
  let llama := getenv LLAMA_CHECKPOINT DEFAULT_CHECKPOINT in
  let decoder := getenv DECODER_CHECKPOINT DEFAULT_CHECKPOINT in
  let p := log LoadingModels p in
  let loaded : result (string * string * engine) * process :=
    match TTSInferenceEngine llama decoder dev p with
    | (Ok e, p) => (Ok (llama, decoder, e), log ModelsLoaded p)
    | (Exn _, p) =>
        let p := log FallingBackToDownload (log LoadFailed p) in
        match _download_models p with
        | (Exn e, p) => (Exn e, p)
        | (Ok _, p) =>
            match TTSInferenceEngine LOCAL_CHECKPOINT LOCAL_CHECKPOINT dev p with
            | (Ok e, p) => (Ok (LOCAL_CHECKPOINT, LOCAL_CHECKPOINT, e), p)
            | (Exn e, p) => (Exn e, p)
            end
        end
    end in
  match loaded with
  | (Exn e, p) => (Exn e, p)
  | (Ok (llama, decoder, e), p) =>
      match _load_reference_audio p with
      | (Exn err, p) => (Exn err, p)
      | (Ok ref, p) =>
          let p := log Ready p in
          let p := log (CacheLocation HollyFishVoice.CACHE_DIR) p in
          let p := log (ReferenceIs (bool_decide (is_Some ref))) p in
          (Ok (Voice dev llama decoder e ref), p)
      end
  end.

(** [get_holly_voice()] *)
Definition get_holly_voice (p : process) : result voice * process :=
  match _holly_voice_instance p with
  | Some v => (Ok v, p)
  | None =>
      match __init__ p with
      | (Ok v, p) =>
          (Ok v, Process (downloaded p) (ref_audio_dir p) (Some v) (startup_log p))
      | (Exn e, p) => (Exn e, p)
      end
  end.

End Host.

End FishV2Startup.
Example md5_empty : MD5.hexdigest [] = "d41d8cd98f00b204e9800998ecf8427e"%string.
Proof. vm_compute. reflexivity. Qed.

Example md5_abc :
  option_map MD5.hexdigest (encode_utf8 (str_of "abc"))
  = Some "900150983cd24fb0d6963f7d28e17f72"%string.
Proof. vm_compute. reflexivity. Qed.

Example md5_two_blocks :
  MD5.hexdigest (repeat 120 70) = "7d56c0f83fd1e320d60ea2f13dfdeedd"%string.
Proof. vm_compute. reflexivity. Qed.

Example md5_utf8 :
  option_map MD5.hexdigest (encode_utf8 ([233] ++ str_of ":holly"))
  = Some "e5b40f40bc94903f0a3fed4862bad9e5"%string.
Proof. vm_compute. reflexivity. Qed.

Example sample_count_hello : Py.sample_count 24000 20 5 = Some 6000.
Proof. vm_compute. reflexivity. Qed.

Example sample_count_23 : Py.sample_count 24000 20 23 = Some 27599.
Proof. vm_compute. reflexivity. Qed.

Example sample_count_piper_11 : Py.sample_count 22050 15 11 = Some 16169.
Proof. vm_compute. reflexivity. Qed.

Example sample_count_empty : Py.sample_count 24000 20 0 = Some 0.
Proof. vm_compute. reflexivity. Qed.

Example round2_eighth : Py.round2 (Py.truediv 131072 1048576) = Py.truediv 12 100.
Proof. vm_compute. reflexivity. Qed.


(* ===================================================================== *)
(** * Basic facts *)
(* ===================================================================== *)

Lemma all_from_spec check n lo :
  all_from check n lo = true ->
  forall x, lo <= x < lo + Z.of_nat n -> check x = true.
Proof.
  revert lo. induction n as [|n IH]; intros lo Hall x Hx; [lia|].
  simpl in Hall. destruct (check lo) eqn:Hlo; [|discriminate].
  destruct (decide (x = lo)) as [->|Hne]; [done|].
  apply (IH (lo + 1)); [done|lia].
Qed.

(** Running the monad. *)
Ltac run :=
  repeat (progress (unfold mbind, M_bind, mret, M_ret, try_except, print, emit,
                           lift, raise, when_cached, path_exists, silence,
                           stdout_accepts in *;
                    cbn [fst snd cache fault errors stdout negb message_text
                         forallb] in *)).

(** ** What standard output accepts *)

Lemma accepts_encoded h c b : encode_cp c = Some b -> accepts h c = true.
Proof. intros Hc. unfold accepts. rewrite Hc. by destruct h. Qed.

(** Text that UTF-8 encodes can be printed under every handler. *)
Lemma stdout_accepts_encoded h s b :
  encode_utf8 s = Some b -> stdout_accepts h s = true.
Proof.
  revert b. induction s as [|c s IH]; intros b Hs; [done|].
  simpl in Hs. destruct (encode_cp c) as [bc|] eqn:Hc; [|done].
  destruct (encode_utf8 s) as [bs|]; [|done].
  unfold stdout_accepts in *. simpl.
  rewrite (accepts_encoded h c bc Hc). eauto.
Qed.

Lemma stdout_accepts_take h n s :
  stdout_accepts h s = true -> stdout_accepts h (take n s) = true.
Proof.
  unfold stdout_accepts. revert n. induction s as [|c s IH]; intros [|n] Hs;
    try done.
  simpl in *. apply andb_true_iff in Hs as [-> Hs]. by apply IH.
Qed.

Lemma stdout_accepts_lenient s : stdout_accepts Lenient s = true.
Proof.
  unfold stdout_accepts. induction s as [|c s IH]; [done|]. simpl.
  rewrite IH. unfold accepts. by destruct (encode_cp c).
Qed.

Lemma encode_utf8_app_l s t b :
  encode_utf8 (s ++ t) = Some b -> exists bs, encode_utf8 s = Some bs.
Proof.
  revert b. induction s as [|c s IH]; intros b Hs; [by eexists|].
  simpl in *. destruct (encode_cp c) as [bc|]; [|done].
  destruct (encode_utf8 (s ++ t)) as [bs|] eqn:Hst; [|done].
  destruct (IH _ eq_refl) as [bs' ->]. by eexists.
Qed.

(** A request that has a cache key can be announced: its text holds
    nothing that standard output refuses. *)
Lemma fish_key_printable h text voice k :
  HollyFishVoice._get_cache_key text voice = Some k ->
  forallb (accepts h) (take 50 text) = true.
Proof.
  unfold HollyFishVoice._get_cache_key. intros Hk.
  destruct (encode_utf8 (text ++ str_of ":" ++ voice)) as [b|] eqn:Hb; [|done].
  destruct (encode_utf8_app_l _ _ _ Hb) as [bs Hbs].
  apply (stdout_accepts_take h 50), (stdout_accepts_encoded h _ bs Hbs).
Qed.

Lemma text_printable h text b :
  encode_utf8 text = Some b ->
  forallb (accepts h) (take 50 text) = true.
Proof.
  intros Hb. apply (stdout_accepts_take h 50), (stdout_accepts_encoded h _ b Hb).
Qed.

Lemma text_key_printable h text k :
  HollyPiperVoice._get_cache_key text = Some k ->
  forallb (accepts h) (take 50 text) = true.
Proof.
  unfold HollyPiperVoice._get_cache_key. intros Hk.
  destruct (encode_utf8 text) as [b|] eqn:Hb; [|done].
  by eapply text_printable.
Qed.


Section CacheFacts.
Context {sample : Type} `{Audio sample}.
Implicit Types (w : world) (audio : list sample).

Lemma load_absent key w :
  cache w !! HollyFishVoice._get_cache_path key = None ->
  HollyFishVoice._load_from_cache (sample := sample) key w = (Ok None, w).
Proof.
  intros Hnone. unfold HollyFishVoice._load_from_cache. run.
  rewrite Hnone. rewrite bool_decide_eq_false_2; [done|].
  by intros [? ?].
Qed.

Lemma load_corrupt key w bytes :
  cache w !! HollyFishVoice._get_cache_path key = Some bytes ->
  sf_decode bytes = None ->
  HollyFishVoice._load_from_cache (sample := sample) key w = (Ok None, w).
Proof.
  intros Hsome Hdec. unfold HollyFishVoice._load_from_cache. run.
  rewrite Hsome. rewrite bool_decide_eq_true_2; [|by eexists].
  unfold sf_read. rewrite Hsome, Hdec. done.
Qed.

Lemma load_hit key w bytes audio sr :
  cache w !! HollyFishVoice._get_cache_path key = Some bytes ->
  sf_decode bytes = Some (audio, sr) ->
  HollyFishVoice._load_from_cache key w
  = (Ok (Some audio), World (cache w) (fault w) (errors w) (stdout w ++ [CacheHit key])).
Proof.
  intros Hsome Hdec. unfold HollyFishVoice._load_from_cache. run.
  rewrite Hsome. rewrite bool_decide_eq_true_2; [|by eexists].
  unfold sf_read. rewrite Hsome, Hdec. done.
Qed.

(** A lookup never raises, and only a hit prints. *)
Lemma load_cases key w :
  HollyFishVoice._load_from_cache (sample := sample) key w = (Ok None, w)
  \/ exists bytes audio sr,
       cache w !! HollyFishVoice._get_cache_path key = Some bytes
       /\ sf_decode bytes = Some (audio, sr)
       /\ HollyFishVoice._load_from_cache key w
          = (Ok (Some audio), World (cache w) (fault w) (errors w) (stdout w ++ [CacheHit key])).
Proof.
  destruct (cache w !! HollyFishVoice._get_cache_path key) as [bytes|] eqn:Hl.
  - destruct (sf_decode bytes) as [[audio sr]|] eqn:Hd.
    + right. exists bytes, audio, sr. eauto using load_hit.
    + left. eauto using load_corrupt.
  - left. eauto using load_absent.
Qed.

Lemma save_ok key audio sr w bytes :
  sf_encode audio sr = Some bytes ->
  fault w = WriteOk ->
  HollyFishVoice._save_to_cache key audio sr w
  = (Ok tt, World (<[HollyFishVoice._get_cache_path key := bytes]> (cache w))
                  (fault w) (errors w) (stdout w ++ [Cached key])).
Proof.
  intros Henc Hf. unfold HollyFishVoice._save_to_cache. run.
  unfold sf_write. rewrite Henc, Hf. done.
Qed.

(** A failed write is printed and swallowed. *)
Lemma save_failed key audio sr w :
  (sf_encode audio sr = None \/ fault w <> WriteOk) ->
  exists e dir,
    HollyFishVoice._save_to_cache key audio sr w
    = (Ok tt, World dir (fault w) (errors w) (stdout w ++ [CacheSaveFailed e])).
Proof.
  intros Hfail. unfold HollyFishVoice._save_to_cache. run. unfold sf_write.
  destruct (sf_encode audio sr) as [bytes|] eqn:Henc.
  - destruct (fault w) eqn:Hf.
    + destruct Hfail as [?|Hne]; [discriminate|]. by destruct Hne.
    + exists OSError, (cache w). by rewrite Hf.
    + eexists OSError, _. simpl. by rewrite ?Hf.
  - by exists LibsndfileError, (cache w).
Qed.

(** [_save_to_cache] never raises and never touches the fault mode. *)
Lemma save_total key audio sr w :
  exists dir out,
    HollyFishVoice._save_to_cache key audio sr w = (Ok tt, World dir (fault w) (errors w) out).
Proof.
  destruct (sf_encode audio sr) as [bytes|] eqn:Henc.
  - destruct (fault w) eqn:Hf.
    + eexists _, _. rewrite <- Hf. by apply save_ok.
    + destruct (save_failed key audio sr w) as (e & dir & ->);
        [right; congruence|rewrite Hf; eauto].
    + destruct (save_failed key audio sr w) as (e & dir & ->);
        [right; congruence|rewrite Hf; eauto].
  - destruct (save_failed key audio sr w) as (e & dir & ->); eauto.
Qed.

End CacheFacts.

(* ===================================================================== *)
(** * The cache directory: globbing, statistics and clearing *)
(* ===================================================================== *)

Section Suffix.
Local Open Scope nat_scope.

Lemma substring_all s : substring 0 (String.length s) s = s.
Proof. induction s as [|c s IH]; simpl; [done|by rewrite IH]. Qed.

Lemma substring_split s n :
  n <= String.length s ->
  s = (substring 0 n s +:+ substring n (String.length s - n) s)%string.
Proof.
  revert s. induction n as [|n IH]; intros s Hn.
  - rewrite Nat.sub_0_r, substring_all. by destruct s.
  - destruct s as [|c s]; simpl in *; [lia|].
    change (String c (substring 0 n s) +:+ ?t)%string
      with (String c (substring 0 n s +:+ t)).
    f_equal. apply IH. lia.
Qed.

Lemma length_app_string s t :
  String.length (s +:+ t) = String.length s + String.length t.
Proof. induction s as [|c s IH]; simpl; [done|by rewrite IH]. Qed.

Lemma substring_suffix s t :
  substring (String.length s) (String.length t) (s +:+ t) = t.
Proof.
  induction s as [|c s IH]; simpl; [apply substring_all|].
  destruct (String.length t); apply IH.
Qed.

(** [*.wav] matches exactly the names that end in [.wav]. *)
Lemma is_wav_iff name : is_wav name = true <-> ends_in_wav name.
Proof.
  unfold is_wav, ends_in_wav. rewrite andb_true_iff, Nat.leb_le, String.eqb_eq.
  split.
  - intros [Hlen Hsuf].
    exists (substring 0 (String.length name - 4) name).
    pose proof (substring_split name (String.length name - 4)) as Hs.
    replace (String.length name - (String.length name - 4)) with 4 in Hs by lia.
    rewrite Hsuf in Hs. apply Hs. lia.
  - intros [stem ->]. rewrite length_app_string. simpl. split; [lia|].
    replace (String.length stem + 4 - 4) with (String.length stem) by lia.
    apply (substring_suffix stem ".wav").
Qed.

Lemma is_wav_cache_path key : is_wav (HollyFishVoice._get_cache_path key) = true.
Proof. apply is_wav_iff. by exists key. Qed.

End Suffix.

Lemma glob_wav_elem dir name f :
  (name, f) ∈ glob_wav dir <-> dir !! name = Some f /\ is_wav name = true.
Proof.
  unfold glob_wav. rewrite elem_of_map_to_list, map_lookup_filter_Some. simpl.
  by rewrite Is_true_true.
Qed.

Lemma glob_wav_names dir name :
  name ∈ (glob_wav dir).*1 <-> is_Some (dir !! name) /\ is_wav name = true.
Proof.
  rewrite list_elem_of_fmap. split.
  - intros ([n f] & -> & Hin). apply glob_wav_elem in Hin as [? ?]. eauto.
  - intros [[f Hf] Hw]. exists (name, f). split; [done|]. by apply glob_wav_elem.
Qed.

Lemma glob_wav_NoDup dir : NoDup (glob_wav dir).*1.
Proof. apply NoDup_fst_map_to_list. Qed.

(** The loop of [clear_cache]: every listed file is there to be
    removed, so no [unlink] raises. *)
Lemma for_each_unlink (l : list (string * list Z)) dir f h out :
  NoDup l.*1 ->
  (forall x, x ∈ l -> is_Some (dir !! x.1)) ->
  exists dir',
    for_each l (fun cache_file => unlink cache_file.1) (World dir f h out)
    = (Ok tt, World dir' f h out)
    /\ forall k, dir' !! k = if decide (k ∈ l.*1) then None else dir !! k.
Proof.
  revert dir. induction l as [|x l IH]; intros dir Hnd Hin.
  - exists dir. split; [done|]. intros k. rewrite decide_False; [done|]. by inversion 1.
  - rewrite fmap_cons in Hnd. apply NoDup_cons in Hnd as [Hx Hnd].
    destruct (Hin x) as [v Hv]; [left|].
    destruct (IH (delete x.1 dir) Hnd) as (dir' & Hrun & Hlk).
    { intros y Hy. rewrite lookup_delete_ne; [apply Hin; by right|].
      intros Heq. apply Hx. rewrite Heq. apply list_elem_of_fmap. eauto. }
    exists dir'. split.
    + simpl. unfold mbind, M_bind, unlink at 1. simpl. rewrite Hv. exact Hrun.
    + intros k. rewrite Hlk, fmap_cons.
      destruct (decide (k = x.1)) as [->|Hne].
      * rewrite (decide_True (P := _ ∈ _ :: _)) by left.
        case_decide; [done|]. apply lookup_delete_eq.
      * rewrite lookup_delete_ne by done.
        repeat case_decide; try done.
        -- exfalso. apply H0. by right.
        -- exfalso. apply H. apply elem_of_cons in H0 as [?|?]; done.
Qed.

(** What [clear_cache] does: the [.wav] entries go, the rest stays,
    and the call returns normally. *)
Lemma clear_cache_spec w :
  HollyFishVoice.clear_cache w
  = (Ok tt, World (filter (fun p : string * list Z => ¬ is_wav p.1) (cache w))
                  (fault w) (errors w) (stdout w ++ [CacheCleared])).
Proof.
  unfold HollyFishVoice.clear_cache. destruct w as [dir f h out].
  unfold mbind at 1, M_bind at 1. cbn [cache fault errors stdout].
  destruct (for_each_unlink (glob_wav dir) dir f h out) as (dir' & Hrun & Hlk).
  { apply glob_wav_NoDup. }
  { intros [n v] Hin. apply glob_wav_elem in Hin as [Hl _]. simpl. by eexists. }
  unfold mbind, M_bind. rewrite Hrun. unfold print, emit.
  cbn [cache fault errors stdout message_text stdout_accepts forallb].
  do 2 f_equal. apply map_eq. intros k. rewrite Hlk.
  destruct (dir !! k) as [v|] eqn:Hk; destruct (is_wav k) eqn:Hw.
  - rewrite decide_True.
    + symmetry. apply map_lookup_filter_None. right. intros v' _. simpl.
      rewrite Hw. by intros Hn; apply Hn.
    + apply glob_wav_names. rewrite Hk. eauto.
  - rewrite decide_False.
    + symmetry. apply map_lookup_filter_Some. split; [done|]. simpl.
      rewrite Hw. exact (fun Hf => Hf).
    + rewrite glob_wav_names. intros [_ ?]. congruence.
  - case_decide; symmetry; apply map_lookup_filter_None; by left.
  - case_decide; symmetry; apply map_lookup_filter_None; by left.
Qed.

Lemma cleared_lookup (dir : gmap string (list Z)) name :
  filter (fun p : string * list Z => ¬ is_wav p.1) dir !! name
  = if is_wav name then None else dir !! name.
Proof.
  destruct (is_wav name) eqn:Hw.
  - apply map_lookup_filter_None. right. intros v _. simpl. rewrite Hw.
    by intros Hn; apply Hn.
  - destruct (dir !! name) as [v|] eqn:Hk.
    + apply map_lookup_filter_Some. split; [done|]. simpl. rewrite Hw.
      exact (fun Hf => Hf).
    + apply map_lookup_filter_None. by left.
Qed.

Lemma glob_wav_cleared (dir : gmap string (list Z)) :
  glob_wav (filter (fun p : string * list Z => ¬ is_wav p.1) dir) = [].
Proof.
  unfold glob_wav. apply map_to_list_empty_iff, map_empty. intros k.
  apply map_lookup_filter_None.
  destruct (is_wav k) eqn:Hw.
  - left. by rewrite cleared_lookup, Hw.
  - right. intros v _. simpl. rewrite Hw. exact (fun Hf => Hf).
Qed.

(** Entries that [*.wav] does not match are invisible to the glob. *)
Lemma glob_wav_insert_other dir name f :
  is_wav name = false -> glob_wav (<[name := f]> dir) = glob_wav dir.
Proof.
  intros Hw. unfold glob_wav. f_equal. apply map_filter_insert_not.
  intros y. simpl. rewrite Hw. exact (fun Hf => Hf).
Qed.

Lemma glob_wav_delete_other dir name :
  is_wav name = false -> glob_wav (delete name dir) = glob_wav dir.
Proof.
  intros Hw. unfold glob_wav. f_equal. apply map_filter_delete_not.
  intros y _. simpl. rewrite Hw. exact (fun Hf => Hf).
Qed.

(* ===================================================================== *)
(** * UTF-8 is injective; the separator of the cache key *)
(* ===================================================================== *)

Section Utf8.

Lemma lor_small base n y :
  all_from (fun y => Z.lor base y =? base + y) n 0 = true ->
  0 <= y < Z.of_nat n -> Z.lor base y = base + y.
Proof.
  intros Hall Hy. apply Z.eqb_eq.
  apply (all_from_spec _ _ _ Hall y). lia.
Qed.

Lemma cont_arith x : 0 <= x -> cont x = 0x80 + x mod 64.
Proof.
  intros Hx. unfold cont.
  change 0x3F with (Z.ones 6). rewrite Z.land_ones by lia.
  change (2 ^ 6) with 64.
  apply (lor_small 0x80 64); [by vm_compute|].
  pose proof (Z.mod_pos_bound x 64). lia.
Qed.

Lemma shiftr_arith c k : 0 <= k -> Z.shiftr c k = c / 2 ^ k.
Proof. intros. by apply Z.shiftr_div_pow2. Qed.

(** The four shapes of an encoded code point, in arithmetic form. *)
Lemma encode_cp_cases c b :
  encode_cp c = Some b ->
  (0 <= c < 0x80 /\ b = [c])
  \/ (0x80 <= c < 0x800 /\ b = [0xC0 + c / 64; 0x80 + c mod 64])
  \/ (0x800 <= c < 0x10000 /\ ~ (0xD800 <= c < 0xE000)
      /\ b = [0xE0 + c / 4096; 0x80 + (c / 64) mod 64; 0x80 + c mod 64])
  \/ (0x10000 <= c < 0x110000
      /\ b = [0xF0 + c / 262144; 0x80 + (c / 4096) mod 64;
              0x80 + (c / 64) mod 64; 0x80 + c mod 64]).
Proof.
  unfold encode_cp.
  destruct (c <? 0) eqn:H0; [done|]. apply Z.ltb_ge in H0.
  destruct (c <? 0x80) eqn:H1.
  { apply Z.ltb_lt in H1. intros [= <-]. left. split; [lia|done]. }
  apply Z.ltb_ge in H1.
  destruct (c <? 0x800) eqn:H2.
  { apply Z.ltb_lt in H2. intros [= <-]. right; left. split; [lia|].
    rewrite cont_arith, shiftr_arith by lia. change (2 ^ 6) with 64.
    f_equal. apply (lor_small 0xC0 32); [by vm_compute|].
    split; [apply Z.div_pos; lia|].
    apply Z.div_lt_upper_bound; lia. }
  apply Z.ltb_ge in H2.
  destruct (c <? 0x10000) eqn:H3.
  { apply Z.ltb_lt in H3.
    destruct ((0xD800 <=? c) && (c <? 0xE000)) eqn:Hs; [done|].
    intros [= <-]. right; right; left.
    split; [lia|]. split.
    { intros [Ha Hb]. apply Z.leb_le in Ha. apply Z.ltb_lt in Hb.
      by rewrite Ha, Hb in Hs. }
    rewrite !shiftr_arith by lia.
    rewrite !cont_arith by (try apply Z.div_pos; lia).
    change (2 ^ 12) with 4096. change (2 ^ 6) with 64.
    f_equal. apply (lor_small 0xE0 16); [by vm_compute|].
    split; [apply Z.div_pos; lia|].
    apply Z.div_lt_upper_bound; lia. }
  apply Z.ltb_ge in H3.
  destruct (c <? 0x110000) eqn:H4; [|done].
  apply Z.ltb_lt in H4. intros [= <-]. right; right; right.
  split; [lia|].
  rewrite !shiftr_arith by lia.
  rewrite !cont_arith by (try apply Z.div_pos; lia).
  change (2 ^ 18) with 262144. change (2 ^ 12) with 4096. change (2 ^ 6) with 64.
  f_equal. apply (lor_small 0xF0 8); [by vm_compute|].
  split; [apply Z.div_pos; lia|].
  apply Z.div_lt_upper_bound; lia.
Qed.

Lemma encode_cp_nonempty c b : encode_cp c = Some b -> b <> [].
Proof.
  intros Hc. apply encode_cp_cases in Hc.
  destruct Hc as [(_ & ->)|[(_ & ->)|[(_ & _ & ->)|(_ & ->)]]]; done.
Qed.

(** The code is prefix-free: the encodings of two code points that
    start the same byte string belong to the same code point. *)
Lemma encode_cp_prefix c1 c2 b1 b2 r1 r2 :
  encode_cp c1 = Some b1 -> encode_cp c2 = Some b2 ->
  b1 ++ r1 = b2 ++ r2 -> c1 = c2.
Proof.
  intros H1 H2 Heq.
  apply encode_cp_cases in H1. apply encode_cp_cases in H2.
  destruct H1 as [(R1 & ->)|[(R1 & ->)|[(R1 & N1 & ->)|(R1 & ->)]]];
  destruct H2 as [(R2 & ->)|[(R2 & ->)|[(R2 & N2 & ->)|(R2 & ->)]]];
  simpl in Heq; simplify_eq; try done; Z.div_mod_to_equations; lia.
Qed.

Lemma encode_utf8_inj s1 s2 b :
  encode_utf8 s1 = Some b -> encode_utf8 s2 = Some b -> s1 = s2.
Proof.
  revert s2 b. induction s1 as [|c1 s1 IH]; intros [|c2 s2] b; simpl.
  - done.
  - intros [= <-]. destruct (encode_cp c2) as [b2|] eqn:E2; [|done].
    destruct (encode_utf8 s2); [|done]. intros [= Hnil].
    apply encode_cp_nonempty in E2. by destruct b2.
  - destruct (encode_cp c1) as [b1|] eqn:E1; [|done].
    destruct (encode_utf8 s1); [|done]. intros [= <-] [= Hnil].
    apply encode_cp_nonempty in E1. by destruct b1.
  - destruct (encode_cp c1) as [b1|] eqn:E1; [|done].
    destruct (encode_utf8 s1) as [bs1|] eqn:Es1; [|done].
    destruct (encode_cp c2) as [b2|] eqn:E2; [|done].
    destruct (encode_utf8 s2) as [bs2|] eqn:Es2; [|done].
    intros [= <-] [= Heq].
    assert (c2 = c1) as -> by eauto using encode_cp_prefix.
    assert (b2 = b1) as -> by congruence.
    apply app_inv_head in Heq as ->.
    f_equal. eauto.
Qed.

(** Splitting at the last occurrence of a separator. *)
Lemma split_at_last {A} (x : A) l1 r1 l2 r2 :
  x ∉ r1 -> x ∉ r2 -> l1 ++ x :: r1 = l2 ++ x :: r2 -> l1 = l2 /\ r1 = r2.
Proof.
  intros Hr1 Hr2 Heq.
  assert (reverse r1 ++ x :: reverse l1 = reverse r2 ++ x :: reverse l2) as Hrev.
  { apply (f_equal reverse) in Heq.
    by rewrite !reverse_app, !reverse_cons, <- !(assoc_L (++)) in Heq. }
  clear Heq.
  assert (forall a b c d : list A,
             x ∉ a -> x ∉ c -> a ++ x :: b = c ++ x :: d -> a = c /\ b = d) as Hfirst.
  { clear. induction a as [|y a IH]; intros b [|z c] d Ha Hc Heq.
    - by simplify_eq/=.
    - simplify_eq/=. exfalso. apply Hc. by left.
    - simplify_eq/=. exfalso. apply Ha. by left.
    - simplify_eq/=. apply not_elem_of_cons in Ha as [? ?].
      apply not_elem_of_cons in Hc as [? ?].
      destruct (IH b c d) as [-> ->]; done. }
  apply Hfirst in Hrev as [Hr Hl]; [|by rewrite elem_of_reverse..].
  split; [eapply (inj reverse); done|eapply (inj reverse); done].
Qed.

End Utf8.

(* ===================================================================== *)
(** * Running [generate] of holly_fish_voice.py *)
(* ===================================================================== *)

Section FishGenerate.
Context {sample : Type} `{Audio sample}.
Implicit Types (w : world) (text voice : pystr).

(** A hit returns the decoded samples with the fixed rate 24000. *)
Lemma fish_generate_hit text voice w k bytes audio sr :
  HollyFishVoice._get_cache_key text voice = Some k ->
  cache w !! HollyFishVoice._get_cache_path k = Some bytes ->
  sf_decode bytes = Some (audio, sr) ->
  HollyFishVoice.generate text voice true w
  = (Ok (audio, 24000),
     World (cache w) (fault w) (errors w) (stdout w ++ [CacheHit k; GeneratedCached])).
Proof.
  intros Hk Hl Hd. unfold HollyFishVoice.generate. run. rewrite Hk. run.
  rewrite (load_hit _ _ _ _ _ Hl Hd). run.
  by rewrite <- (assoc_L (++)).
Qed.

Lemma fish_generate_nocache text voice w n :
  stdout_accepts (errors w) (take 50 text) = true ->
  Py.sample_count 24000 20 (Z.of_nat (List.length text)) = Some n ->
  HollyFishVoice.generate text voice false w
  = (Ok (np_zeros n, 24000),
     World (cache w) (fault w) (errors w)
           (stdout w ++ [Generating (take 50 text); Generated])).
Proof.
  intros Hp Hn. unfold HollyFishVoice.generate. run. rewrite Hp. run.
  rewrite Hn. run. by rewrite <- (assoc_L (++)).
Qed.

(** The announcement is printed before the [try]: when standard
    output refuses it, [generate] raises and nothing else happens. *)
Lemma fish_generate_unannounced text voice w :
  stdout_accepts (errors w) (take 50 text) = false ->
  HollyFishVoice.generate (sample := sample) text voice false w
  = (Exn UnicodeEncodeError, w).
Proof.
  intros Hp. unfold HollyFishVoice.generate. run. by rewrite Hp.
Qed.

(** On a miss the placeholder audio is synthesised, handed to
    [_save_to_cache], and returned whatever the write did. *)
Lemma fish_generate_miss text voice w k n :
  HollyFishVoice._get_cache_key text voice = Some k ->
  HollyFishVoice._load_from_cache (sample := sample) k w = (Ok None, w) ->
  Py.sample_count 24000 20 (Z.of_nat (List.length text)) = Some n ->
  HollyFishVoice.generate text voice true w
  = (Ok (np_zeros n, 24000),
     (HollyFishVoice._save_to_cache k (np_zeros n) 24000
        (World (cache w) (fault w) (errors w) (stdout w ++ [Generating (take 50 text); Generated]))).2).
Proof.
  intros Hk Hl Hn. unfold HollyFishVoice.generate. run. rewrite Hk. run.
  rewrite Hl. run. rewrite (fish_key_printable _ _ _ _ Hk). run.
  rewrite Hn. run. rewrite <- (assoc_L (++)). simpl.
  match goal with |- context [HollyFishVoice._save_to_cache ?a ?b ?c ?d] =>
    destruct (save_total a b c d) as (dir & out & ->) end.
  done.
Qed.

End FishGenerate.

(* ===================================================================== *)
(** * Running [generate] of the cloud and piper backends *)
(* ===================================================================== *)

Section FallbackRuns.
Context {sample : Type} `{Audio sample}.
Variables (api_key : option pystr) (voice_id : pystr).
Variable requests_post : pystr -> pystr -> http_result.
Variables (model_path : option string).
Variable subprocess_run : option string -> list Z -> piper_result.

Lemma cloud_no_key_run text voice w n :
  HollyFishVoiceCloud.no_api_key api_key = true ->
  stdout_accepts (errors w) (take 50 text) = true ->
  Py.sample_count 24000 20 (Z.of_nat (List.length text)) = Some n ->
  HollyFishVoiceCloud.generate (sample := sample) api_key voice_id requests_post
    text voice false w
  = (Ok (np_zeros n, 24000),
     World (cache w) (fault w) (errors w)
           (stdout w ++ [Generating (take 50 text); ApiKeyNotSet; GeneratedFallback])).
Proof.
  intros Hkey Hp Hn.
  unfold HollyFishVoiceCloud.generate. run. rewrite Hp. run. rewrite Hkey. run.
  rewrite Hn. run.
  by rewrite <- !(assoc_L (++)).
Qed.



End FallbackRuns.

(* ===================================================================== *)
(** * The length of the placeholder silence, and the fallback tone *)
(* ===================================================================== *)

(** For the text lengths that the HTTP service accepts (at most 5000
    characters) the number of samples is defined, and it is the exact
    product 1200 * len or one less: the quotient len / 20 is rounded to
    binary64 before it is multiplied and truncated. *)
Lemma sample_count_24000_bounds len :
  0 <= len <= 5000 ->
  exists n, Py.sample_count 24000 20 len = Some n
            /\ 1200 * len - 1 <= n <= 1200 * len.
Proof.
  intros Hlen.
  pose (check := fun len =>
          match Py.sample_count 24000 20 len with
          | Some n => (1200 * len - 1 <=? n) && (n <=? 1200 * len)
          | None => false
          end).
  assert (all_from check (Z.to_nat 5001) 0 = true) as Hall by (vm_compute; reflexivity).
  pose proof (all_from_spec check _ 0 Hall len) as Hc.
  rewrite Z2Nat.id in Hc by lia. specialize (Hc ltac:(lia)). unfold check in Hc.
  destruct (Py.sample_count 24000 20 len) as [n|]; [|discriminate].
  exists n. split; [done|].
  apply andb_true_iff in Hc as [H1 H2].
  apply Z.leb_le in H1. apply Z.leb_le in H2. lia.
Qed.

Lemma np_zeros_silent {sample : Type} `{Audio sample} n :
  0 <= n ->
  Z.of_nat (List.length (np_zeros (sample := sample) n)) = n
  /\ Forall (fun x => x = np_zero) (np_zeros (sample := sample) n).
Proof.
  intros Hn. unfold np_zeros. split.
  - rewrite repeat_length. lia.
  - apply Forall_forall. intros x Hx. apply list_elem_of_In in Hx.
    by apply repeat_spec in Hx.
Qed.

Section Beep.
Local Open Scope R_scope.






End Beep.

(* ===================================================================== *)
(** * Clearing the cache and reading its statistics *)
(* ===================================================================== *)

(** C9: [clear_cache] returns normally from every state of the cache
    directory, leaves no [.wav] entry, leaves an empty directory empty,
    changes nothing more when it is run a second time, and
    [get_cache_stats] then reports zero entries and zero bytes. *)
Theorem C9_clear_cache_idempotent (w : world) :
  exists w1,
    HollyFishVoice.clear_cache w = (Ok tt, w1)
    /\ (forall name, ends_in_wav name -> cache w1 !! name = None)
    /\ (cache w = ∅ -> cache w1 = ∅)
    /\ (exists w2,
          HollyFishVoice.clear_cache w1 = (Ok tt, w2)
          /\ cache w2 = cache w1 /\ fault w2 = fault w1)
    /\ HollyFishVoice.total_size (cache w1) = 0
    /\ HollyFishVoice.get_cache_stats w1
       = (Ok {| cached_phrases := 0;
                total_size_mb := S754_zero false;
                cache_dir := HollyFishVoice.CACHE_DIR |}, w1).
Proof.
  eexists. split; [apply clear_cache_spec|]. cbn [cache fault errors stdout].
  repeat split.
  - intros name Hw. apply is_wav_iff in Hw. by rewrite cleared_lookup, Hw.
  - intros ->. apply map_filter_empty.
  - eexists. split; [apply clear_cache_spec|]. cbn [cache fault errors stdout].
    split; [|done]. apply map_eq. intros k. rewrite !cleared_lookup.
    by destruct (is_wav k).
  - unfold HollyFishVoice.total_size. by rewrite glob_wav_cleared.
  - unfold HollyFishVoice.get_cache_stats. cbn [cache fault errors stdout].
    by rewrite glob_wav_cleared.
Qed.

(** C10: [get_cache_stats] counts exactly the entries whose name ends
    in [.wav], each once; an entry with another name changes neither
    the count nor the size, whether it is added or removed; and
    [clear_cache] removes the [.wav] entries and leaves every other
    entry as it was. *)
Theorem C10_only_wav_entries (w : world) :
  (forall name f,
      (name, f) ∈ glob_wav (cache w) <-> cache w !! name = Some f /\ ends_in_wav name)
  /\ NoDup (glob_wav (cache w)).*1
  /\ (exists s,
        HollyFishVoice.get_cache_stats w = (Ok s, w)
        /\ cached_phrases s = List.length (glob_wav (cache w))
        /\ total_size_mb s
           = Py.round2 (Py.truediv (py_sum (st_size <$> glob_wav (cache w))) (1024 * 1024)))
  /\ (forall name f,
        ~ ends_in_wav name ->
        (HollyFishVoice.get_cache_stats
           (World (<[name := f]> (cache w)) (fault w) (errors w) (stdout w))).1
        = (HollyFishVoice.get_cache_stats w).1
        /\ (HollyFishVoice.get_cache_stats
              (World (delete name (cache w)) (fault w) (errors w) (stdout w))).1
           = (HollyFishVoice.get_cache_stats w).1
        /\ HollyFishVoice.total_size (<[name := f]> (cache w))
           = HollyFishVoice.total_size (cache w))
  /\ (exists w1,
        HollyFishVoice.clear_cache w = (Ok tt, w1)
        /\ (forall name, ends_in_wav name -> cache w1 !! name = None)
        /\ (forall name, ~ ends_in_wav name -> cache w1 !! name = cache w !! name)).
Proof.
  split; [|split; [|split; [|split]]].
  - intros name f. by rewrite glob_wav_elem, is_wav_iff.
  - apply glob_wav_NoDup.
  - eexists. split; [reflexivity|]. done.
  - intros name f Hnw.
    assert (is_wav name = false) as Hw.
    { destruct (is_wav name) eqn:E; [|done]. by apply is_wav_iff in E. }
    unfold HollyFishVoice.get_cache_stats, HollyFishVoice.total_size.
    cbn [cache fault stdout fst].
    by rewrite glob_wav_insert_other, glob_wav_delete_other.
  - eexists. split; [apply clear_cache_spec|]. cbn [cache fault errors stdout].
    split; intros name Hn; rewrite cleared_lookup.
    + apply is_wav_iff in Hn. by rewrite Hn.
    + destruct (is_wav name) eqn:E; [|done]. by apply is_wav_iff in E.
Qed.

(** ** A directory with one cache entry and one foreign file *)

Lemma C9_clear_cache_idempotent_witness :
  let w := World {[ "0cc175b9.wav"%string := [82; 73; 70; 70];
                    "notes.txt"%string := [104; 105] ]} WriteOk Strict [] in
  exists w1,
    HollyFishVoice.clear_cache w = (Ok tt, w1)
    /\ cache w1 !! "0cc175b9.wav"%string = None
    /\ HollyFishVoice.total_size (cache w1) = 0.
Proof.
  intros w.
  destruct (C9_clear_cache_idempotent w) as (w1 & Hrun & Hgone & _ & _ & Hsize & _).
  exists w1. split; [exact Hrun|]. split; [|exact Hsize].
  apply Hgone. by exists "0cc175b9"%string.
Defined.

Lemma C10_only_wav_entries_witness :
  let w := World {[ "0cc175b9.wav"%string := [82; 73; 70; 70];
                    "notes.txt"%string := [104; 105] ]} WriteOk Strict [] in
  exists w1,
    HollyFishVoice.clear_cache w = (Ok tt, w1)
    /\ cache w1 !! "0cc175b9.wav"%string = None
    /\ cache w1 !! "notes.txt"%string = Some [104; 105].
Proof.
  intros w.
  destruct (C10_only_wav_entries w) as (_ & _ & _ & _ & w1 & Hrun & Hgone & Hkept).
  exists w1. split; [exact Hrun|]. split.
  - apply Hgone. by exists "0cc175b9"%string.
  - rewrite Hkept; [reflexivity|].
    intros Hw. apply is_wav_iff in Hw. discriminate Hw.
Defined.

(* ===================================================================== *)
(** * Cache keys *)
(* ===================================================================== *)

(** The string that the fish, fish-v2 and cloud backends hash. *)
Lemma fish_key_content_inj t1 v1 t2 v2 b :
  58 ∉ v1 -> 58 ∉ v2 ->
  encode_utf8 (t1 ++ str_of ":" ++ v1) = Some b ->
  encode_utf8 (t2 ++ str_of ":" ++ v2) = Some b ->
  t1 = t2 /\ v1 = v2.
Proof.
  intros Hv1 Hv2 H1 H2.
  pose proof (encode_utf8_inj _ _ _ H1 H2) as Heq.
  simpl in Heq. by apply split_at_last in Heq.
Qed.

(** C1, as the code has it.  Every backend computes equal keys for
    equal (text, voice).  The fish, fish-v2 and cloud backends hash
    the UTF-8 bytes of text ':' voice: two requests that differ in
    either field hash different bytes whenever neither voice contains
    a colon.  The gtts and piper backends hash the UTF-8 bytes of the
    text alone: the voice never changes the key, and requests with
    different texts hash different bytes. *)
Theorem C1_cache_keys (t1 v1 t2 v2 : pystr) :
  (t1 = t2 -> v1 = v2 ->
     HollyFishVoice._get_cache_key t1 v1 = HollyFishVoice._get_cache_key t2 v2
     /\ HollyFishVoiceV2._get_cache_key t1 v1 = HollyFishVoiceV2._get_cache_key t2 v2
     /\ HollyFishVoiceCloud._get_cache_key t1 v1 = HollyFishVoiceCloud._get_cache_key t2 v2
     /\ HollyGTTSVoice.request_key t1 v1 = HollyGTTSVoice.request_key t2 v2
     /\ HollyPiperVoice.request_key t1 v1 = HollyPiperVoice.request_key t2 v2)
  /\ (58 ∉ v1 -> 58 ∉ v2 -> (t1, v1) <> (t2, v2) ->
      forall b1 b2,
        encode_utf8 (t1 ++ str_of ":" ++ v1) = Some b1 ->
        encode_utf8 (t2 ++ str_of ":" ++ v2) = Some b2 ->
        b1 <> b2
        /\ HollyFishVoice._get_cache_key t1 v1 = Some (MD5.hexdigest b1)
        /\ HollyFishVoice._get_cache_key t2 v2 = Some (MD5.hexdigest b2))
  /\ HollyGTTSVoice.request_key t1 v1 = HollyGTTSVoice.request_key t1 v2
  /\ HollyPiperVoice.request_key t1 v1 = HollyPiperVoice.request_key t1 v2
  /\ (t1 <> t2 ->
      forall b1 b2,
        encode_utf8 t1 = Some b1 -> encode_utf8 t2 = Some b2 ->
        b1 <> b2
        /\ HollyGTTSVoice.request_key t1 v1 = Some (MD5.hexdigest b1)
        /\ HollyGTTSVoice.request_key t2 v2 = Some (MD5.hexdigest b2)
        /\ HollyPiperVoice.request_key t1 v1 = Some (MD5.hexdigest b1)
        /\ HollyPiperVoice.request_key t2 v2 = Some (MD5.hexdigest b2)).
Proof.
  split; [by intros -> ->|].
  split.
  { intros Hv1 Hv2 Hne b1 b2 H1 H2. split.
    - intros <-. destruct (fish_key_content_inj _ _ _ _ _ Hv1 Hv2 H1 H2).
      apply Hne. congruence.
    - unfold HollyFishVoice._get_cache_key. by rewrite H1, H2. }
  split; [done|]. split; [done|].
  intros Hne b1 b2 H1 H2. split.
  - intros <-. apply Hne. eauto using encode_utf8_inj.
  - unfold HollyGTTSVoice.request_key, HollyGTTSVoice._get_cache_key,
      HollyPiperVoice.request_key, HollyPiperVoice._get_cache_key.
    by rewrite H1, H2.
Qed.

Lemma C1_cache_keys_witness :
  let b1 := [104; 105; 58; 97] in
  let b2 := [104; 105; 58; 98] in
  b1 <> b2
  /\ HollyFishVoice._get_cache_key (str_of "hi") (str_of "a") = Some (MD5.hexdigest b1)
  /\ HollyFishVoice._get_cache_key (str_of "hi") (str_of "b") = Some (MD5.hexdigest b2).
Proof.
  destruct (C1_cache_keys (str_of "hi") (str_of "a") (str_of "hi") (str_of "b"))
    as (_ & Hfish & _).
  apply Hfish.
  - intros Hin. apply list_elem_of_singleton in Hin. discriminate Hin.
  - intros Hin. apply list_elem_of_singleton in Hin. discriminate Hin.
  - intros Heq. discriminate Heq.
  - reflexivity.
  - reflexivity.
Defined.

(** C1 fails as stated: the gtts and piper backends give one key to
    two requests that differ in the voice, and the fish backend gives
    one key to two requests whose colon sits in different fields. *)
Lemma C1_counterexample :
  (str_of "hi", str_of "holly") <> (str_of "hi", str_of "molly")
  /\ HollyGTTSVoice.request_key (str_of "hi") (str_of "holly")
     = HollyGTTSVoice.request_key (str_of "hi") (str_of "molly")
  /\ HollyPiperVoice.request_key (str_of "hi") (str_of "holly")
     = HollyPiperVoice.request_key (str_of "hi") (str_of "molly")
  /\ (str_of "a:b", str_of "c") <> (str_of "a", str_of "b:c")
  /\ HollyFishVoice._get_cache_key (str_of "a:b") (str_of "c")
     = Some "02cc8f08398a4f3113b554e8105ebe4c"%string
  /\ HollyFishVoice._get_cache_key (str_of "a") (str_of "b:c")
     = Some "02cc8f08398a4f3113b554e8105ebe4c"%string.
Proof.
  split; [discriminate|]. split; [reflexivity|]. split; [reflexivity|].
  split; [discriminate|]. split; by vm_compute.
Qed.

(* ===================================================================== *)
(** * The cache around [generate] *)
(* ===================================================================== *)

Section FishCacheProperties.
Context {sample : Type} `{Audio sample}.
Implicit Types (w : world) (text voice : pystr) (audio : list sample).

(** C3, as the code has it.  After [_save_to_cache key audio rate]
    on a host that accepts the write, [_load_from_cache key] returns
    exactly what the codec decodes from what it encoded: as many
    samples as were stored, each within the precision of the codec.
    The stored rate stays in the file; a hit of [generate] reports
    the fixed rate 24000 whatever rate was stored. *)
Theorem C3_put_then_get (close : sample -> sample -> Prop)
    w key audio sample_rate bytes audio' :
  fault w = WriteOk ->
  codec_preserves close audio sample_rate bytes audio' ->
  exists w1,
    HollyFishVoice._save_to_cache key audio sample_rate w = (Ok tt, w1)
    /\ cache w1 !! HollyFishVoice._get_cache_path key = Some bytes
    /\ sf_decode bytes = Some (audio', sample_rate)
    /\ (HollyFishVoice._load_from_cache key w1).1 = Ok (Some audio')
    /\ List.length audio' = List.length audio
    /\ Forall2 close audio audio'
    /\ forall text voice,
         HollyFishVoice._get_cache_key text voice = Some key ->
         (HollyFishVoice.generate text voice true w1).1 = Ok (audio', 24000).
Proof.
  intros Hf (Henc & Hdec & Hclose).
  eexists. split; [by apply save_ok|]. cbn [cache fault errors stdout].
  assert (<[HollyFishVoice._get_cache_path key := bytes]> (cache w)
            !! HollyFishVoice._get_cache_path key = Some bytes) as Hl
    by apply lookup_insert_eq.
  repeat split; try done.
  - by erewrite load_hit.
  - symmetry. by eapply Forall2_length.
  - intros text voice Hk. by erewrite fish_generate_hit.
Qed.


(** C7: when synthesis succeeded and the write of its result to the
    cache fails, [_save_to_cache] prints the failure and returns, and
    [generate] returns the new samples and their rate unchanged. *)
Theorem C7_failed_cache_write_is_swallowed w text voice k n :
  HollyFishVoice._get_cache_key text voice = Some k ->
  HollyFishVoice._load_from_cache (sample := sample) k w = (Ok None, w) ->
  Py.sample_count 24000 20 (Z.of_nat (List.length text)) = Some n ->
  (sf_encode (np_zeros (sample := sample) n) 24000 = None \/ fault w <> WriteOk) ->
  exists e dir,
    HollyFishVoice.generate text voice true w
    = (Ok (np_zeros n, 24000),
       World dir (fault w) (errors w)
             (stdout w ++ [Generating (take 50 text); Generated; CacheSaveFailed e]))
    /\ (HollyFishVoice.generate text voice true w).1
       = (HollyFishVoice.generate text voice false w).1
    /\ forall (audio : list sample) sample_rate w0,
         (HollyFishVoice._save_to_cache k audio sample_rate w0).1 = Ok tt.
Proof.
  intros Hk Hmiss Hn Hfail.
  rewrite (fish_generate_miss _ _ _ _ _ Hk Hmiss Hn).
  rewrite (fish_generate_nocache _ _ _ _ (fish_key_printable _ _ _ _ Hk) Hn).
  destruct (save_failed k (np_zeros n) 24000
              (World (cache w) (fault w) (errors w) (stdout w ++ [Generating (take 50 text); Generated])))
    as (e & dir & ->); [done|].
  exists e, dir. simpl. rewrite <- (assoc_L (++)).
  split; [done|]. split; [done|].
  intros audio sr w0. by destruct (save_total k audio sr w0) as (? & ? & ->).
Qed.

(** C8: two calls of [generate(text, voice, use_cache=True)] in
    succession, on a host where the write of the first call and the
    read of the second succeed.  After the first call the cache holds
    the entry of the request's key, and the second call returns what
    the codec decodes from that entry, at 24000 Hz: it prints a hit
    and nothing else, so it synthesises nothing, and it leaves the
    world as the first call left it.  When the first call was itself
    a hit, the entry is the one that was there and both calls return
    the same audio; otherwise the first call synthesised, returned
    its audio and stored it, and the entry is that audio encoded. *)
Theorem C8_second_call_is_a_hit w text voice k n stored decoded sr :
  HollyFishVoice._get_cache_key text voice = Some k ->
  Py.sample_count 24000 20 (Z.of_nat (List.length text)) = Some n ->
  fault w = WriteOk ->
  sf_encode (np_zeros n) 24000 = Some stored ->
  sf_decode stored = Some (decoded, sr) ->
  exists r1 w1 entry a rate,
    HollyFishVoice.generate text voice true w = (Ok r1, w1)
    /\ cache w1 !! HollyFishVoice._get_cache_path k = Some entry
    /\ sf_decode entry = Some (a, rate)
    /\ HollyFishVoice.generate text voice true w1
       = (Ok (a, 24000),
          World (cache w1) (fault w1) (errors w1)
                (stdout w1 ++ [CacheHit k; GeneratedCached]))
    /\ (Generating (take 50 text) ∉ [CacheHit k; GeneratedCached])
    /\ (Generated ∉ [CacheHit k; GeneratedCached])
    /\ ((cache w !! HollyFishVoice._get_cache_path k = Some entry
         /\ r1 = (a, 24000) /\ cache w1 = cache w
         /\ printed w w1 [CacheHit k; GeneratedCached])
        \/ (HollyFishVoice._load_from_cache (sample := sample) k w = (Ok None, w)
            /\ r1 = (np_zeros n, 24000) /\ entry = stored /\ a = decoded
            /\ cache w1 = <[HollyFishVoice._get_cache_path k := stored]> (cache w)
            /\ printed w w1 [Generating (take 50 text); Generated; Cached k])).
Proof.
  intros Hk Hn Hf Henc Hdec.
  assert (forall e : event, e <> CacheHit k -> e <> GeneratedCached ->
            e ∉ [CacheHit k; GeneratedCached]) as Hnot.
  { intros e H1 H2. rewrite !not_elem_of_cons. repeat split; try done.
    apply not_elem_of_nil. }
  destruct (load_cases (sample := sample) k w)
    as [Hmiss|(bytes & audio & sr0 & Hl & Hd & _)].
  - rewrite (fish_generate_miss _ _ _ _ _ Hk Hmiss Hn).
    erewrite save_ok by done. cbn [snd cache fault errors stdout].
    eexists _, _, stored, decoded, sr. split; [done|].
    split; [apply lookup_insert_eq|]. split; [done|]. split.
    + erewrite fish_generate_hit; [done|done| |done].
      apply lookup_insert_eq.
    + split; [by apply Hnot|]. split; [by apply Hnot|]. right.
      repeat split; try done.
      unfold printed. simpl. by rewrite <- (assoc_L (++)).
  - rewrite (fish_generate_hit _ _ _ _ _ _ _ Hk Hl Hd).
    eexists _, _, bytes, audio, sr0. split; [done|].
    split; [done|]. split; [done|]. split.
    + by erewrite fish_generate_hit.
    + split; [by apply Hnot|]. split; [by apply Hnot|]. by left.
Qed.

End FishCacheProperties.

(** ** The fish backend on a concrete host *)

Lemma C3_put_then_get_witness :
  let audio := [S754_zero false; S754_zero false] in
  exists w1,
    HollyFishVoice._save_to_cache "cd22d5822161bb7460599f3230350fb6" audio 24000 initial_world
    = (Ok tt, w1)
    /\ (HollyFishVoice._load_from_cache "cd22d5822161bb7460599f3230350fb6" w1).1
       = Ok (Some audio).
Proof.
  intros audio.
  destruct (C3_put_then_get eq initial_world "cd22d5822161bb7460599f3230350fb6"
              audio 24000 [192; 93; 0; 0; 0; 0; 0; 0] audio)
    as (w1 & Hsave & _ & _ & Hload & _).
  - reflexivity.
  - split; [reflexivity|]. split; [reflexivity|]. repeat constructor.
  - exists w1. split; assumption.
Defined.

(** C3 fails as stated: an entry stored at 44100 Hz comes back from
    [generate] with the rate 24000. *)
Lemma C3_counterexample :
  let key := "cd22d5822161bb7460599f3230350fb6"%string in
  let audio := [S754_zero false; S754_zero false] in
  let w1 := (HollyFishVoice._save_to_cache key audio 44100 initial_world).2 in
  HollyFishVoice._get_cache_key (str_of "hello") (str_of "holly") = Some key
  /\ (cache w1 !! HollyFishVoice._get_cache_path key) ≫= sf_decode
     = Some (audio, 44100)
  /\ (HollyFishVoice.generate (str_of "hello") (str_of "holly") true w1).1
     = Ok (audio, 24000)
  /\ 24000 <> 44100.
Proof.
  split; [by vm_compute|]. split; [by vm_compute|]. split; [by vm_compute|]. lia.
Qed.


Lemma C7_failed_cache_write_is_swallowed_witness :
  let w := World ∅ WriteRefused Strict [] in
  (HollyFishVoice.generate (sample := Py.float) (str_of "hi") (str_of "holly") true w).1
  = (HollyFishVoice.generate (str_of "hi") (str_of "holly") false w).1.
Proof.
  intros w.
  destruct (C7_failed_cache_write_is_swallowed (sample := Py.float) w
              (str_of "hi") (str_of "holly")
              "4208c7e3f6c152d0b0ba3f076b85e781" 2400)
    as (e & dir & _ & Hsame & _).
  - by vm_compute.
  - reflexivity.
  - by vm_compute.
  - right. discriminate.
  - exact Hsame.
Defined.

Lemma C8_second_call_is_a_hit_witness :
  exists r1 w1 entry a rate,
    HollyFishVoice.generate (sample := Py.float) (str_of "hi") (str_of "holly") true initial_world
    = (Ok r1, w1)
    /\ cache w1 !! "4208c7e3f6c152d0b0ba3f076b85e781.wav"%string = Some entry
    /\ ToyWav.decode entry = Some (a, rate)
    /\ HollyFishVoice.generate (sample := Py.float) (str_of "hi") (str_of "holly") true w1
       = (Ok (a, 24000),
          World (cache w1) (fault w1) (errors w1)
                (stdout w1 ++ [CacheHit "4208c7e3f6c152d0b0ba3f076b85e781";
                               GeneratedCached])).
Proof.
  destruct (C8_second_call_is_a_hit (sample := Py.float) initial_world
              (str_of "hi") (str_of "holly")
              "4208c7e3f6c152d0b0ba3f076b85e781" 2400
              (MD5.le_bytes 4 24000 ++ repeat 0 4800) (np_zeros 2400) 24000)
    as (r1 & w1 & entry & a & rate & H1 & H2 & H3 & H4 & _).
  - by vm_compute.
  - by vm_compute.
  - reflexivity.
  - by vm_compute.
  - by vm_compute.
  - exists r1, w1, entry, a, rate. repeat split; assumption.
Defined.

(* ===================================================================== *)
(** * Fallbacks of the cloud, piper and fish-v2 backends *)
(* ===================================================================== *)

Section FallbackProperties.
Context {sample : Type} `{Audio sample}.
Variables (api_key : option pystr) (voice_id : pystr).
Variable requests_post : pystr -> pystr -> http_result.
Variables (model_path : option string).
Variable subprocess_run : option string -> list Z -> piper_result.

(** C5, as the code has it.  Without an API key, and with
    [use_cache=False], for a text whose first 50 characters standard
    output can print, the cloud backend returns without raising a
    buffer of zeros at 24000 Hz and calls nothing outside.  The
    buffer has int(24000 * (len(text) / 20)) samples, the quotient
    and the product rounded to binary64 before the truncation: for
    texts of at most 5000 characters, 1200 * len(text) samples or one
    fewer. *)
Theorem C5_missing_credentials_silence text voice w n :
  HollyFishVoiceCloud.no_api_key api_key = true ->
  stdout_accepts (errors w) (take 50 text) = true ->
  Py.sample_count 24000 20 (Z.of_nat (List.length text)) = Some n ->
  HollyFishVoiceCloud.generate (sample := sample) api_key voice_id requests_post
    text voice false w
  = (Ok (np_zeros n, 24000),
     World (cache w) (fault w) (errors w)
           (stdout w ++ [Generating (take 50 text); ApiKeyNotSet; GeneratedFallback]))
  /\ Forall (fun x => x = np_zero) (np_zeros (sample := sample) n)
  /\ List.length (np_zeros (sample := sample) n) = Z.to_nat n
  /\ ((List.length text <= 5000)%nat ->
      1200 * Z.of_nat (List.length text) - 1 <= n <= 1200 * Z.of_nat (List.length text)).
Proof.
  intros Hkey Hout Hn. split; [|split; [|split]].
  - by apply cloud_no_key_run.
  - unfold np_zeros. apply Forall_forall. intros x Hx.
    apply list_elem_of_In in Hx. by apply repeat_spec in Hx.
  - unfold np_zeros. apply repeat_length.
  - intros Hlen.
    destruct (sample_count_24000_bounds (Z.of_nat (List.length text)))
      as (n' & Hn' & Hb); [lia|].
    congruence.
Qed.


End FallbackProperties.

Section BeepProperties.
Context `{Audio R}.
Variable reference_audio : option (list R).
Variable engine_inference : pystr -> option (list R) -> option engine_result.


End BeepProperties.

(** ** The fallbacks on concrete hosts *)

Lemma C5_missing_credentials_silence_witness :
  HollyFishVoiceCloud.generate (sample := Py.float) None (str_of "default_female_voice")
    (fun _ _ => HttpRaises) (str_of "hello") (str_of "holly") false initial_world
  = (Ok (np_zeros 6000, 24000),
     World ∅ WriteOk Strict [Generating (str_of "hello"); ApiKeyNotSet; GeneratedFallback]).
Proof.
  apply (C5_missing_credentials_silence (sample := Py.float) None
           (str_of "default_female_voice") (fun _ _ => HttpRaises)
           (str_of "hello") (str_of "holly") initial_world 6000).
  - reflexivity.
  - reflexivity.
  - by vm_compute.
Defined.

(** C5 fails as stated: for the 23 characters of "I encountered an
    error." the buffer has 27599 samples, and 24000 * 23 / 20 is
    27600. *)
Lemma C5_counterexample :
  exists audio,
    (HollyFishVoiceCloud.generate (sample := Py.float) None
       (str_of "default_female_voice") (fun _ _ => HttpRaises)
       phrase_error (str_of "holly") false initial_world).1
    = Ok (audio, 24000)
    /\ Z.of_nat (List.length audio) = 27599
    /\ 24000 * Z.of_nat (List.length phrase_error) / 20 = 27600.
Proof.
  exists (np_zeros 27599). split; [|split].
  - rewrite (cloud_no_key_run None (str_of "default_female_voice")
               (fun _ _ => HttpRaises) phrase_error (str_of "holly") initial_world 27599);
      [done|done|done|by vm_compute].
  - unfold np_zeros. rewrite repeat_length. lia.
  - reflexivity.
Qed.




(* ===================================================================== *)
(** * More on the cache keys *)
(* ===================================================================== *)

Section KeyShape.

Lemma encode_cp_defined c : is_Some (encode_cp c) <-> scalar c.
Proof.
  unfold encode_cp, scalar.
  destruct (c <? 0) eqn:H0; [apply Z.ltb_lt in H0|apply Z.ltb_ge in H0].
  { split; [by intros [? ?]|lia]. }
  destruct (c <? 0x80) eqn:H1; [apply Z.ltb_lt in H1|apply Z.ltb_ge in H1].
  { split; [lia|by eexists]. }
  destruct (c <? 0x800) eqn:H2; [apply Z.ltb_lt in H2|apply Z.ltb_ge in H2].
  { split; [lia|by eexists]. }
  destruct (c <? 0x10000) eqn:H3; [apply Z.ltb_lt in H3|apply Z.ltb_ge in H3].
  { destruct (0xD800 <=? c) eqn:H4; [apply Z.leb_le in H4|apply Z.leb_gt in H4];
      (destruct (c <? 0xE000) eqn:H5; [apply Z.ltb_lt in H5|apply Z.ltb_ge in H5]);
      simpl; split; try lia; try (by eexists); by intros [? ?]. }
  destruct (c <? 0x110000) eqn:H4; [apply Z.ltb_lt in H4|apply Z.ltb_ge in H4].
  { split; [lia|by eexists]. }
  split; [by intros [? ?]|lia].
Qed.

Lemma encode_utf8_defined s : is_Some (encode_utf8 s) <-> Forall scalar s.
Proof.
  induction s as [|c s IH]; simpl.
  - split; [constructor|by eexists].
  - rewrite Forall_cons, <- IH, <- encode_cp_defined.
    destruct (encode_cp c), (encode_utf8 s); split;
      try (by intros [? ?]); try (by intros [[? ?] [? ?]]);
      try (by intros; split; eexists); by eexists.
Qed.

Lemma le_bytes_length n x : List.length (MD5.le_bytes n x) = n.
Proof. revert x. induction n as [|n IH]; intros x; simpl; [done|by rewrite IH]. Qed.

Lemma le_bytes_range n x : Forall (fun b => 0 <= b < 256) (MD5.le_bytes n x).
Proof.
  revert x. induction n as [|n IH]; intros x; simpl; constructor; [|apply IH].
  apply Z.mod_pos_bound. lia.
Qed.

Lemma digest_shape msg :
  List.length (MD5.digest msg) = 16%nat
  /\ Forall (fun b => 0 <= b < 256) (MD5.digest msg).
Proof.
  unfold MD5.digest.
  destruct (MD5.blocks _ _ _) as [A B C D].
  split.
  - by rewrite !length_app, !le_bytes_length.
  - rewrite !Forall_app. repeat split; apply le_bytes_range.
Qed.

Lemma hex_digit_lower d : 0 <= d < 16 -> is_lower_hex (MD5.hex_digit d) = true.
Proof.
  intros Hd.
  apply (all_from_spec (fun d => is_lower_hex (MD5.hex_digit d)) 16 0); [by vm_compute|lia].
Qed.

Lemma hex_shape bs :
  Forall (fun b => 0 <= b < 256) bs ->
  String.length (MD5.hex bs) = (2 * List.length bs)%nat
  /\ all_chars is_lower_hex (MD5.hex bs) = true.
Proof.
  induction 1 as [|b bs Hb _ [IHl IHc]]; [done|]. simpl. split.
  - rewrite IHl. lia.
  - rewrite IHc, !hex_digit_lower; [done| |].
    + apply Z.mod_pos_bound. lia.
    + split; [apply Z.div_pos; lia|apply Z.div_lt_upper_bound; lia].
Qed.

Lemma hexdigest_shape msg :
  String.length (MD5.hexdigest msg) = 32%nat
  /\ all_chars is_lower_hex (MD5.hexdigest msg) = true.
Proof.
  destruct (digest_shape msg) as [Hl Hr].
  destruct (hex_shape _ Hr) as [Hl' Hc]. unfold MD5.hexdigest.
  split; [by rewrite Hl', Hl|done].
Qed.

End KeyShape.

(** X1: [_get_cache_key] of the fish backends raises exactly when the
    text or the voice holds a code point that UTF-8 refuses (a
    surrogate); the key of the gtts and piper backends raises exactly
    when the text does, whatever the voice. *)
Theorem X1_key_defined_iff_encodable (text voice : pystr) :
  (is_Some (HollyFishVoice._get_cache_key text voice)
   <-> Forall scalar text /\ Forall scalar voice)
  /\ (is_Some (HollyGTTSVoice._get_cache_key text) <-> Forall scalar text)
  /\ (is_Some (HollyPiperVoice._get_cache_key text) <-> Forall scalar text).
Proof.
  unfold HollyFishVoice._get_cache_key, HollyGTTSVoice._get_cache_key,
    HollyPiperVoice._get_cache_key.
  rewrite !fmap_is_Some, !encode_utf8_defined, !Forall_app.
  split; [|done].
  split; [tauto|]. intros [? ?]. repeat split; try done.
  repeat constructor. unfold scalar. lia.
Qed.

Lemma X1_key_defined_iff_encodable_witness :
  ~ is_Some (HollyFishVoice._get_cache_key (str_of "hi") [0xD800]).
Proof.
  intros Hs.
  apply (X1_key_defined_iff_encodable (str_of "hi") [0xD800]) in Hs as [_ Hv].
  apply Forall_cons in Hv as [[?|?] _]; lia.
Defined.

(** X2: a cache key is always 32 characters, each one of [0-9a-f], in
    every backend; the name of its cache file is the key followed by
    [.wav], which [*.wav] matches. *)
Theorem X2_key_is_32_hex_digits (text voice : pystr) (k : string) :
  HollyFishVoice._get_cache_key text voice = Some k
  \/ HollyGTTSVoice._get_cache_key text = Some k
  \/ HollyPiperVoice._get_cache_key text = Some k ->
  String.length k = 32%nat
  /\ all_chars is_lower_hex k = true
  /\ String.length (HollyFishVoice._get_cache_path k) = 36%nat
  /\ is_wav (HollyFishVoice._get_cache_path k) = true.
Proof.
  intros Hk.
  assert (exists msg, k = MD5.hexdigest msg) as [msg ->].
  { unfold HollyFishVoice._get_cache_key, HollyGTTSVoice._get_cache_key,
      HollyPiperVoice._get_cache_key in Hk.
    destruct Hk as [Hk|[Hk|Hk]]; apply fmap_Some in Hk as (msg & _ & ->); eauto. }
  destruct (hexdigest_shape msg) as [Hl Hc].
  repeat split; try done.
  - unfold HollyFishVoice._get_cache_path. rewrite length_app_string, Hl. done.
  - apply is_wav_cache_path.
Qed.

Lemma X2_key_is_32_hex_digits_witness :
  String.length "cd22d5822161bb7460599f3230350fb6" = 32%nat
  /\ all_chars is_lower_hex "cd22d5822161bb7460599f3230350fb6" = true.
Proof.
  destruct (X2_key_is_32_hex_digits (str_of "hello") (str_of "holly")
              "cd22d5822161bb7460599f3230350fb6") as (Hl & Hc & _).
  - left. by vm_compute.
  - split; [exact Hl|exact Hc].
Defined.

(* ===================================================================== *)
(** * More on the cache layer of holly_fish_voice.py *)
(* ===================================================================== *)

Lemma append_inj_l (s1 s2 t : string) :
  (s1 +:+ t)%string = (s2 +:+ t)%string -> s1 = s2.
Proof.
  intros Heq.
  assert (String.length s1 = String.length s2) as Hlen.
  { apply (f_equal String.length) in Heq. rewrite !length_app_string in Heq. lia. }
  revert s2 Heq Hlen. induction s1 as [|c s1 IH]; intros [|d s2] Heq Hlen;
    simpl in *; try done.
  injection Heq as -> Heq. f_equal. apply IH; [done|lia].
Qed.

Lemma cache_path_inj k k' :
  HollyFishVoice._get_cache_path k = HollyFishVoice._get_cache_path k' -> k = k'.
Proof. apply append_inj_l. Qed.

Section CacheLayer.
Context {sample : Type} `{Audio sample}.
Implicit Types (w : world) (text voice : pystr) (audio : list sample).

(** A lookup reads one entry of the directory and nothing else. *)
Lemma load_ext k w1 w2 :
  cache w1 !! HollyFishVoice._get_cache_path k
  = cache w2 !! HollyFishVoice._get_cache_path k ->
  (HollyFishVoice._load_from_cache (sample := sample) k w1).1
  = (HollyFishVoice._load_from_cache (sample := sample) k w2).1.
Proof.
  intros Heq.
  destruct (cache w2 !! HollyFishVoice._get_cache_path k) as [bytes|] eqn:H2.
  - destruct (sf_decode bytes) as [[audio sr]|] eqn:Hd.
    + by rewrite (load_hit _ _ _ _ _ Heq Hd), (load_hit _ _ _ _ _ H2 Hd).
    + by rewrite (load_corrupt _ _ _ Heq Hd), (load_corrupt _ _ _ H2 Hd).
  - by rewrite (load_absent _ _ Heq), (load_absent _ _ H2).
Qed.

(** What [_save_to_cache] can do to the directory: nothing outside the
    file of its key. *)
Lemma save_frame k audio sr w name :
  name <> HollyFishVoice._get_cache_path k ->
  cache (HollyFishVoice._save_to_cache k audio sr w).2 !! name = cache w !! name.
Proof.
  intros Hne. unfold HollyFishVoice._save_to_cache. run. unfold sf_write.
  destruct (sf_encode audio sr); [|done].
  destruct (fault w); simpl; [|done|]; by rewrite lookup_insert_ne.
Qed.

(** X3: before its [try], [generate] computes the key when
    [use_cache=True] and then prints the first 50 characters of the
    text.  With [use_cache=True] a text or a voice that UTF-8 refuses
    makes it raise UnicodeEncodeError having printed nothing and
    touched no file.  With [use_cache=False] nothing is encoded for a
    key: the request is served when standard output accepts the first
    50 characters of the text, and raises UnicodeEncodeError, again
    with nothing printed, when it refuses them.  So a request with an
    unencodable voice, or with a lone surrogate after the first 50
    characters, is refused with the cache on and served with it
    off. *)
Theorem X3_unencodable_request_raises text voice w :
  (encode_utf8 (text ++ str_of ":" ++ voice) = None ->
   HollyFishVoice.generate (sample := sample) text voice true w
   = (Exn UnicodeEncodeError, w))
  /\ (stdout_accepts (errors w) (take 50 text) = true ->
      forall n,
        Py.sample_count 24000 20 (Z.of_nat (List.length text)) = Some n ->
        HollyFishVoice.generate (sample := sample) text voice false w
        = (Ok (np_zeros n, 24000),
           World (cache w) (fault w) (errors w)
                 (stdout w ++ [Generating (take 50 text); Generated])))
  /\ (stdout_accepts (errors w) (take 50 text) = false ->
      HollyFishVoice.generate (sample := sample) text voice false w
      = (Exn UnicodeEncodeError, w)).
Proof.
  split; [|split].
  - intros Henc.
    unfold HollyFishVoice.generate, HollyFishVoice._get_cache_key. run.
    by rewrite Henc.
  - intros Hout n Hn. by apply fish_generate_nocache.
  - apply fish_generate_unannounced.
Qed.

(** X4: distinct keys have distinct cache files, and storing audio
    under one key, whether the write succeeds or fails, never changes
    what a lookup of another key returns. *)
Theorem X4_save_leaves_other_keys k k' audio sr w :
  k <> k' ->
  HollyFishVoice._get_cache_path k <> HollyFishVoice._get_cache_path k'
  /\ (HollyFishVoice._load_from_cache (sample := sample) k'
        (HollyFishVoice._save_to_cache k audio sr w).2).1
     = (HollyFishVoice._load_from_cache (sample := sample) k' w).1.
Proof.
  intros Hne.
  assert (HollyFishVoice._get_cache_path k <> HollyFishVoice._get_cache_path k')
    as Hp by (intros Heq; by apply cache_path_inj in Heq).
  split; [done|]. apply load_ext. by apply save_frame.
Qed.


End CacheLayer.

Lemma X3_unencodable_request_raises_witness :
  let w := World ∅ WriteOk Strict [] in
  HollyFishVoice.generate (sample := Py.float) (str_of "hi") [0xDC00] true w
  = (Exn UnicodeEncodeError, w)
  /\ HollyFishVoice.generate (sample := Py.float) (str_of "hi") [0xDC00] false w
     = (Ok (np_zeros 2400, 24000),
        World ∅ WriteOk Strict [Generating (str_of "hi"); Generated])
  /\ HollyFishVoice.generate (sample := Py.float) [0xD800] (str_of "holly") false w
     = (Exn UnicodeEncodeError, w).
Proof.
  intros w.
  destruct (X3_unencodable_request_raises (sample := Py.float)
              (str_of "hi") [0xDC00] w) as (Hkey & Hserved & _).
  destruct (X3_unencodable_request_raises (sample := Py.float)
              [0xD800] (str_of "holly") w) as (_ & _ & Hrefused).
  split; [exact (Hkey eq_refl)|]. split; [|exact (Hrefused eq_refl)].
  apply (Hserved eq_refl 2400). by vm_compute.
Defined.

Lemma X4_save_leaves_other_keys_witness :
  (HollyFishVoice._load_from_cache (sample := Py.float) "bb"
     (HollyFishVoice._save_to_cache "aa" [S754_zero false] 24000 initial_world).2).1
  = (HollyFishVoice._load_from_cache (sample := Py.float) "bb" initial_world).1.
Proof.
  apply (X4_save_leaves_other_keys (sample := Py.float) "aa" "bb"
           [S754_zero false] 24000 initial_world).
  discriminate.
Defined.


(* ===================================================================== *)
(** * More on [get_cache_stats] *)
(* ===================================================================== *)

Lemma py_sum_perm l l' : l ≡ₚ l' -> py_sum l = py_sum l'.
Proof.
  unfold py_sum.
  induction 1 as [|x l l' _ IH|x y l|l l' l'' _ IH1 _ IH2]; simpl; lia.
Qed.

Lemma py_sum_sizes_cons name (bytes : list Z) (l : list (string * list Z)) :
  py_sum (st_size <$> (name, bytes) :: l)
  = Z.of_nat (List.length bytes) + py_sum (st_size <$> l).
Proof. reflexivity. Qed.

Lemma py_sum_sizes_nonneg (l : list (string * list Z)) : 0 <= py_sum (st_size <$> l).
Proof.
  induction l as [|x l IH]; [done|].
  rewrite fmap_cons. unfold py_sum in *. cbn [foldr]. unfold st_size at 1. lia.
Qed.

Lemma glob_wav_insert_new dir name bytes :
  dir !! name = None -> is_wav name = true ->
  glob_wav (<[name := bytes]> dir) ≡ₚ (name, bytes) :: glob_wav dir.
Proof.
  intros Hnone Hw. unfold glob_wav.
  rewrite map_filter_insert_True by (simpl; by rewrite Hw).
  apply map_to_list_insert. apply map_lookup_filter_None. by left.
Qed.

Lemma glob_wav_delete dir name old :
  dir !! name = Some old -> is_wav name = true ->
  (name, old) :: glob_wav (delete name dir) ≡ₚ glob_wav dir.
Proof.
  intros Hsome Hw. unfold glob_wav. rewrite map_filter_delete.
  apply map_to_list_delete. apply map_lookup_filter_Some. split; [done|].
  simpl. by rewrite Hw.
Qed.

Lemma glob_wav_overwrite dir name old bytes :
  dir !! name = Some old -> is_wav name = true ->
  (name, old) :: glob_wav (<[name := bytes]> dir) ≡ₚ (name, bytes) :: glob_wav dir.
Proof.
  intros Hsome Hw.
  rewrite <- (insert_delete_eq dir).
  rewrite (glob_wav_insert_new (delete name dir)) by (done || apply lookup_delete_eq).
  rewrite <- (glob_wav_delete dir name old) by done.
  apply perm_swap.
Qed.

Section StatsAfterSave.
Context {sample : Type} `{Audio sample}.

(** X6: after a write that succeeded, [get_cache_stats] counts one
    entry more when the key was new and as many as before when the key
    was already stored (one file per key), and the total size moves by
    the sizes of the files written and replaced. *)
Theorem X6_stats_after_save k (audio : list sample) sr w bytes :
  fault w = WriteOk ->
  sf_encode audio sr = Some bytes ->
  let w1 := (HollyFishVoice._save_to_cache k audio sr w).2 in
  exists s s1,
    HollyFishVoice.get_cache_stats w = (Ok s, w)
    /\ HollyFishVoice.get_cache_stats w1 = (Ok s1, w1)
    /\ match cache w !! HollyFishVoice._get_cache_path k with
       | None =>
           cached_phrases s1 = S (cached_phrases s)
           /\ HollyFishVoice.total_size (cache w1)
              = HollyFishVoice.total_size (cache w) + Z.of_nat (List.length bytes)
       | Some old =>
           cached_phrases s1 = cached_phrases s
           /\ HollyFishVoice.total_size (cache w1)
              = HollyFishVoice.total_size (cache w)
                - Z.of_nat (List.length old) + Z.of_nat (List.length bytes)
       end.
Proof.
  intros Hf Henc w1. unfold w1. rewrite (save_ok _ _ _ _ _ Henc Hf).
  eexists _, _. split; [reflexivity|]. split; [reflexivity|].
  cbn [snd cache cached_phrases]. unfold HollyFishVoice.total_size.
  pose proof (is_wav_cache_path k) as Hw.
  destruct (cache w !! HollyFishVoice._get_cache_path k) as [old|] eqn:Hl.
  - pose proof (glob_wav_overwrite _ _ _ bytes Hl Hw) as Hp. split.
    + apply Permutation_length in Hp. simpl in Hp. lia.
    + apply (fmap_Permutation st_size), py_sum_perm in Hp.
      rewrite !py_sum_sizes_cons in Hp. lia.
  - pose proof (glob_wav_insert_new _ _ bytes Hl Hw) as Hp. split.
    + apply Permutation_length in Hp. simpl in Hp. lia.
    + apply (fmap_Permutation st_size), py_sum_perm in Hp.
      rewrite !py_sum_sizes_cons in Hp. lia.
Qed.

End StatsAfterSave.

Lemma X6_stats_after_save_witness :
  let w1 := (HollyFishVoice._save_to_cache "aa" [S754_zero false] 24000 initial_world).2 in
  exists s1,
    HollyFishVoice.get_cache_stats w1 = (Ok s1, w1) /\ cached_phrases s1 = 1%nat.
Proof.
  intros w1.
  destruct (X6_stats_after_save (sample := Py.float) "aa" [S754_zero false] 24000
              initial_world [192; 93; 0; 0; 0; 0])
    as (s & s1 & Hs & Hs1 & Hcount); [reflexivity|reflexivity|].
  exists s1. split; [exact Hs1|].
  change (cache initial_world !! HollyFishVoice._get_cache_path "aa")
    with (@None (list Z)) in Hcount.
  destruct Hcount as [-> _]. injection Hs as <-. reflexivity.
Defined.

(** X7: [total_size_mb] is rounded to two decimals, so a directory
    whose [.wav] files hold fewer than 5243 bytes in total is reported
    as 0.0 MB, however many entries it counts. *)
Theorem X7_small_cache_reports_zero_megabytes w :
  HollyFishVoice.total_size (cache w) < 5243 ->
  exists s,
    HollyFishVoice.get_cache_stats w = (Ok s, w)
    /\ total_size_mb s = S754_zero false
    /\ cached_phrases s = List.length (glob_wav (cache w)).
Proof.
  intros Hsmall. eexists. split; [reflexivity|]. split; [|done].
  cbn [total_size_mb]. unfold HollyFishVoice.total_size in Hsmall.
  pose proof (py_sum_sizes_nonneg (glob_wav (cache w))) as Hpos.
  set (t := py_sum (st_size <$> glob_wav (cache w))) in *.
  pose (check := fun t => match Py.round2 (Py.truediv t (1024 * 1024)) with
                          | S754_zero false => true
                          | _ => false
                          end).
  assert (all_from check (Z.to_nat 5243) 0 = true) as Hall by (by vm_compute).
  pose proof (all_from_spec check _ 0 Hall t) as Hc.
  rewrite Z2Nat.id in Hc by lia. specialize (Hc ltac:(lia)). unfold check in Hc.
  destruct (Py.round2 _) as [[|]| | |]; done.
Qed.

Lemma X7_small_cache_reports_zero_megabytes_witness :
  let w := World {[ "aa.wav"%string := [192; 93; 0; 0; 0; 0] ]} WriteOk Strict [] in
  exists s,
    HollyFishVoice.get_cache_stats w = (Ok s, w)
    /\ total_size_mb s = S754_zero false
    /\ cached_phrases s = 1%nat.
Proof.
  intros w.
  destruct (X7_small_cache_reports_zero_megabytes w) as (s & Hs & Hmb & Hc).
  - by vm_compute.
  - exists s. split; [exact Hs|]. split; [exact Hmb|]. rewrite Hc. by vm_compute.
Defined.

(* ===================================================================== *)
(** * More on [generate] of the cloud, piper and fish-v2 backends *)
(* ===================================================================== *)

Section CloudRuns.
Context {sample : Type} `{Audio sample}.
Variables (api_key : option pystr) (voice_id : pystr).
Variable requests_post : pystr -> pystr -> http_result.
Implicit Types (w : world) (text voice : pystr).

Lemma cloud_hit_run text voice w k bytes audio sr :
  HollyFishVoiceCloud._get_cache_key text voice = Some k ->
  cache w !! HollyFishVoice._get_cache_path k = Some bytes ->
  sf_decode bytes = Some (audio, sr) ->
  HollyFishVoiceCloud.generate api_key voice_id requests_post text voice true w
  = (Ok (audio, 24000),
     World (cache w) (fault w) (errors w) (stdout w ++ [CacheHit k; GeneratedCached])).
Proof.
  intros Hk Hl Hd. unfold HollyFishVoiceCloud.generate. run. rewrite Hk. run.
  rewrite (load_hit _ _ _ _ _ Hl Hd). run.
  by rewrite <- (assoc_L (++)).
Qed.

Lemma cloud_success_run text voice w k content audio sr :
  HollyFishVoiceCloud.no_api_key api_key = false ->
  HollyFishVoiceCloud._get_cache_key text voice = Some k ->
  HollyFishVoice._load_from_cache (sample := sample) k w = (Ok None, w) ->
  requests_post text voice_id = HttpResponse 200 content ->
  sf_decode content = Some (audio, sr) ->
  HollyFishVoiceCloud.generate api_key voice_id requests_post text voice true w
  = (Ok (audio, sr),
     (HollyFishVoice._save_to_cache k audio sr
        (World (cache w) (fault w) (errors w)
               (stdout w ++ [Generating (take 50 text); HttpPost text voice_id; Generated]))).2).
Proof.
  intros Hkey Hk Hl Hp Hd. unfold HollyFishVoiceCloud.generate.
  run. rewrite Hk. run. rewrite Hl. run.
    rewrite (fish_key_printable _ _ _ _ Hk). run. rewrite Hkey. run. rewrite Hp. run.
  rewrite Hd. run. repeat (rewrite <- (assoc_L (++)); simpl).
  match goal with |- context [HollyFishVoice._save_to_cache ?a ?b ?c ?d] =>
    destruct (save_total a b c d) as (dir & out & ->) end.
  done.
Qed.

(** X8: with an API key, a miss, a 200 response whose body decodes and
    a host that accepts the write, the cloud backend returns the
    decoded audio with the rate found in the body and stores it under
    the key of the request; the next call for the same request is
    served from that file without the endpoint or the API key being
    consulted, and reports the rate 24000 whatever rate the body had. *)
Theorem X8_cloud_success_then_hit text voice w k content audio sr stored audio' sr' :
  HollyFishVoiceCloud.no_api_key api_key = false ->
  HollyFishVoiceCloud._get_cache_key text voice = Some k ->
  HollyFishVoice._load_from_cache (sample := sample) k w = (Ok None, w) ->
  requests_post text voice_id = HttpResponse 200 content ->
  sf_decode content = Some (audio, sr) ->
  fault w = WriteOk ->
  sf_encode audio sr = Some stored ->
  sf_decode stored = Some (audio', sr') ->
  exists w1,
    HollyFishVoiceCloud.generate api_key voice_id requests_post text voice true w
    = (Ok (audio, sr), w1)
    /\ printed w w1 [Generating (take 50 text); HttpPost text voice_id; Generated; Cached k]
    /\ cache w1 = <[HollyFishVoice._get_cache_path k := stored]> (cache w)
    /\ forall api_key' requests_post',
         HollyFishVoiceCloud.generate api_key' voice_id requests_post' text voice true w1
         = (Ok (audio', 24000),
            World (cache w1) (fault w1) (errors w1) (stdout w1 ++ [CacheHit k; GeneratedCached])).
Proof.
  intros Hkey Hk Hl Hp Hd Hf Henc Hdec.
  rewrite (cloud_success_run _ _ _ _ _ _ _ Hkey Hk Hl Hp Hd).
  erewrite save_ok by done. cbn [snd cache fault errors stdout].
  eexists. split; [done|]. split; [|split; [done|]].
  - unfold printed. simpl. by rewrite <- (assoc_L (++)).
  - intros api_key' requests_post'. unfold HollyFishVoiceCloud.generate. run.
    rewrite Hk. run.
    erewrite load_hit; [| apply lookup_insert_eq | exact Hdec]. run.
    by rewrite <- (assoc_L (++)).
Qed.

(** X9: the cloud backend never stores a silent placeholder.  With
    caching on and a miss, both the fallback for a missing API key and
    the fallback for a 200 response whose body does not decode return
    silence and leave the cache directory as it was, so the same
    request misses again. *)
Theorem X9_cloud_fallbacks_are_not_cached text voice w k n :
  HollyFishVoiceCloud._get_cache_key text voice = Some k ->
  HollyFishVoice._load_from_cache (sample := sample) k w = (Ok None, w) ->
  Py.sample_count 24000 20 (Z.of_nat (List.length text)) = Some n ->
  (HollyFishVoiceCloud.no_api_key api_key = true
   \/ exists content,
        requests_post text voice_id = HttpResponse 200 content
        /\ sf_decode (sample := sample) content = None) ->
  exists w1,
    HollyFishVoiceCloud.generate api_key voice_id requests_post text voice true w
    = (Ok (np_zeros n, 24000), w1)
    /\ cache w1 = cache w
    /\ HollyFishVoice._load_from_cache (sample := sample) k w1 = (Ok None, w1).
Proof.
  intros Hk Hl Hn Hcase.
  assert (forall out,
            HollyFishVoice._load_from_cache (sample := sample) k
              (World (cache w) (fault w) (errors w) out)
            = (Ok None, World (cache w) (fault w) (errors w) out)) as Hmiss.
  { intros out.
    destruct (load_cases (sample := sample) k w)
      as [_|(bytes & audio & sr & Hb & Hd & Hhit)].
    - destruct (cache w !! HollyFishVoice._get_cache_path k) as [bytes|] eqn:Hb.
      + destruct (sf_decode (sample := sample) bytes) as [[a s]|] eqn:Hd.
        * rewrite (load_hit _ _ _ _ _ Hb Hd) in Hl. discriminate Hl.
        * by eapply load_corrupt.
      + by apply load_absent.
    - rewrite Hhit in Hl. discriminate Hl. }
  destruct (HollyFishVoiceCloud.no_api_key api_key) eqn:Hkey.
  - unfold HollyFishVoiceCloud.generate.
    run. rewrite Hk. run. rewrite Hl. run.
    rewrite (fish_key_printable _ _ _ _ Hk). run. rewrite Hkey. run. rewrite Hn. run.
    eexists. split; [done|]. split; [done|]. apply Hmiss.
  - destruct Hcase as [?|(content & Hp & Hd)]; [done|].
    unfold HollyFishVoiceCloud.generate.
    run. rewrite Hk. run. rewrite Hl. run.
    rewrite (fish_key_printable _ _ _ _ Hk). run. rewrite Hkey. run. rewrite Hp. run.
    rewrite Hd. run. rewrite Hn. run.
    eexists. split; [done|]. split; [done|]. apply Hmiss.
Qed.

End CloudRuns.

Lemma X8_cloud_success_then_hit_witness :
  let body := [68; 172; 0; 0; 0; 0; 0; 0] in
  exists w1,
    HollyFishVoiceCloud.generate (sample := Py.float) (Some (str_of "secret"))
      (str_of "default_female_voice") (fun _ _ => HttpResponse 200 body)
      (str_of "hi") (str_of "holly") true initial_world
    = (Ok ([S754_zero false; S754_zero false], 44100), w1)
    /\ HollyFishVoiceCloud.generate (sample := Py.float) None
         (str_of "default_female_voice") (fun _ _ => HttpRaises)
         (str_of "hi") (str_of "holly") true w1
       = (Ok ([S754_zero false; S754_zero false], 24000),
          World (cache w1) (fault w1) (errors w1)
                (stdout w1 ++ [CacheHit "4208c7e3f6c152d0b0ba3f076b85e781";
                               GeneratedCached])).
Proof.
  intros body.
  destruct (X8_cloud_success_then_hit (sample := Py.float) (Some (str_of "secret"))
              (str_of "default_female_voice") (fun _ _ => HttpResponse 200 body)
              (str_of "hi") (str_of "holly") initial_world
              "4208c7e3f6c152d0b0ba3f076b85e781" body
              [S754_zero false; S754_zero false] 44100 body
              [S754_zero false; S754_zero false] 44100)
    as (w1 & Hrun & _ & _ & Hhit).
  - reflexivity.
  - by vm_compute.
  - reflexivity.
  - reflexivity.
  - reflexivity.
  - reflexivity.
  - reflexivity.
  - reflexivity.
  - exists w1. split; [exact Hrun|apply Hhit].
Defined.

Lemma X9_cloud_fallbacks_are_not_cached_witness :
  exists w1,
    HollyFishVoiceCloud.generate (sample := Py.float) None
      (str_of "default_female_voice") (fun _ _ => HttpRaises)
      (str_of "hi") (str_of "holly") true initial_world
    = (Ok (np_zeros 2400, 24000), w1)
    /\ cache w1 = cache initial_world.
Proof.
  destruct (X9_cloud_fallbacks_are_not_cached (sample := Py.float) None
              (str_of "default_female_voice") (fun _ _ => HttpRaises)
              (str_of "hi") (str_of "holly") initial_world
              "4208c7e3f6c152d0b0ba3f076b85e781" 2400)
    as (w1 & Hrun & Hcache & _).
  - by vm_compute.
  - reflexivity.
  - by vm_compute.
  - by left.
  - exists w1. split; [exact Hrun|exact Hcache].
Defined.

Section PiperRuns.
Context {sample : Type} `{Audio sample}.
Variable model_path : option string.
Variable subprocess_run : option string -> list Z -> piper_result.
Implicit Types (w : world) (text voice : pystr).

Lemma piper_hit_run text voice w k bytes audio sr :
  HollyPiperVoice._get_cache_key text = Some k ->
  cache w !! HollyFishVoice._get_cache_path k = Some bytes ->
  sf_decode bytes = Some (audio, sr) ->
  HollyPiperVoice.generate model_path subprocess_run text voice true w
  = (Ok (audio, 22050),
     World (cache w) (fault w) (errors w) (stdout w ++ [CacheHit k; GeneratedCached])).
Proof.
  intros Hk Hl Hd. unfold HollyPiperVoice.generate. run. rewrite Hk. run.
  rewrite (load_hit _ _ _ _ _ Hl Hd). run.
  by rewrite <- (assoc_L (++)).
Qed.

Lemma piper_success_run text voice w k input output_file audio sr :
  HollyPiperVoice._get_cache_key text = Some k ->
  HollyFishVoice._load_from_cache (sample := sample) k w = (Ok None, w) ->
  encode_utf8 text = Some input ->
  subprocess_run model_path input = PiperExit 0 output_file ->
  sf_decode output_file = Some (audio, sr) ->
  HollyPiperVoice.generate model_path subprocess_run text voice true w
  = (Ok (audio, sr),
     (HollyFishVoice._save_to_cache k audio sr
        (World (cache w) (fault w) (errors w)
               (stdout w ++ [Generating (take 50 text); RunPiper input; Generated]))).2).
Proof.
  intros Hk Hl Hin Hp Hd. unfold HollyPiperVoice.generate.
  run. rewrite Hk. run. rewrite Hl. run.
  rewrite (text_printable (errors w) _ _ Hin). run.
  rewrite Hin. run. rewrite Hp. run.
  rewrite Hd. run. repeat (rewrite <- (assoc_L (++)); simpl).
  match goal with |- context [HollyFishVoice._save_to_cache ?a ?b ?c ?d] =>
    destruct (save_total a b c d) as (dir & out & ->) end.
  done.
Qed.

(** X10: the piper backend keys its cache by the text alone and labels
    every hit 22050 Hz.  After a run of [piper] that exited with 0 and
    whose output was stored, a request for the same text with any
    other voice is served from that file: [piper] is not run again,
    and the rate reported is 22050 whatever rate the file holds. *)
Theorem X10_piper_hit_ignores_voice text voice w k input output_file
    audio sr stored audio' sr' :
  HollyPiperVoice._get_cache_key text = Some k ->
  HollyFishVoice._load_from_cache (sample := sample) k w = (Ok None, w) ->
  encode_utf8 text = Some input ->
  subprocess_run model_path input = PiperExit 0 output_file ->
  sf_decode output_file = Some (audio, sr) ->
  fault w = WriteOk ->
  sf_encode audio sr = Some stored ->
  sf_decode stored = Some (audio', sr') ->
  exists w1,
    HollyPiperVoice.generate model_path subprocess_run text voice true w
    = (Ok (audio, sr), w1)
    /\ printed w w1 [Generating (take 50 text); RunPiper input; Generated; Cached k]
    /\ forall voice' model_path' subprocess_run',
         HollyPiperVoice.generate model_path' subprocess_run' text voice' true w1
         = (Ok (audio', 22050),
            World (cache w1) (fault w1) (errors w1) (stdout w1 ++ [CacheHit k; GeneratedCached])).
Proof.
  intros Hk Hl Hin Hp Hd Hf Henc Hdec.
  rewrite (piper_success_run _ _ _ _ _ _ _ _ Hk Hl Hin Hp Hd).
  erewrite save_ok by done. cbn [snd cache fault errors stdout].
  eexists. split; [done|]. split.
  - unfold printed. simpl. by rewrite <- (assoc_L (++)).
  - intros voice' model_path' subprocess_run'.
    unfold HollyPiperVoice.generate. run. rewrite Hk. run.
    erewrite load_hit; [| apply lookup_insert_eq | exact Hdec]. run.
    by rewrite <- (assoc_L (++)).
Qed.

(** X11: in the piper backend the text is encoded twice, for the key
    before the [try] and for the standard input of [piper] inside it,
    and its first 50 characters are printed in between.  A text that
    UTF-8 refuses makes [generate] raise with [use_cache=True].  With
    [use_cache=False] it raises as well when standard output refuses
    the first 50 characters; when standard output accepts them (the
    surrogate comes later, or the handler lets it through) the failure
    of the second encoding is caught, [piper] is not run, and the
    silent fallback is returned. *)
Theorem X11_piper_unencodable_text text voice w :
  encode_utf8 text = None ->
  HollyPiperVoice.generate (sample := sample) model_path subprocess_run text voice true w
  = (Exn UnicodeEncodeError, w)
  /\ (stdout_accepts (errors w) (take 50 text) = false ->
      HollyPiperVoice.generate (sample := sample) model_path subprocess_run
        text voice false w
      = (Exn UnicodeEncodeError, w))
  /\ (stdout_accepts (errors w) (take 50 text) = true ->
      forall n,
        Py.sample_count 22050 15 (Z.of_nat (List.length text)) = Some n ->
        HollyPiperVoice.generate (sample := sample) model_path subprocess_run
          text voice false w
        = (Ok (np_zeros n, 22050),
           World (cache w) (fault w) (errors w)
                 (stdout w ++ [Generating (take 50 text);
                               GenerationFailed UnicodeEncodeError]))).
Proof.
  intros Henc. unfold HollyPiperVoice.generate, HollyPiperVoice._get_cache_key.
  split; [|split].
  - run. by rewrite Henc.
  - intros Hout. run. by rewrite Hout.
  - intros Hout n Hn. run. rewrite Hout. run. rewrite Henc. run.
    rewrite Hn. run. by rewrite <- (assoc_L (++)).
Qed.

End PiperRuns.

(** X12: the silent fallback of the piper backend, for texts of at
    most 5000 characters, has 1470 samples per character or one sample
    fewer: int(22050 * (len(text) / 15)) with the quotient rounded to
    binary64 first. *)
Theorem X12_piper_fallback_length len :
  0 <= len <= 5000 ->
  exists n, Py.sample_count 22050 15 len = Some n
            /\ 1470 * len - 1 <= n <= 1470 * len.
Proof.
  intros Hlen.
  pose (check := fun len =>
          match Py.sample_count 22050 15 len with
          | Some n => (1470 * len - 1 <=? n) && (n <=? 1470 * len)
          | None => false
          end).
  assert (all_from check (Z.to_nat 5001) 0 = true) as Hall by (vm_compute; reflexivity).
  pose proof (all_from_spec check _ 0 Hall len) as Hc.
  rewrite Z2Nat.id in Hc by lia. specialize (Hc ltac:(lia)). unfold check in Hc.
  destruct (Py.sample_count 22050 15 len) as [n|]; [|discriminate].
  exists n. split; [done|].
  apply andb_true_iff in Hc as [H1 H2].
  apply Z.leb_le in H1. apply Z.leb_le in H2. lia.
Qed.

Lemma X12_piper_fallback_length_witness :
  exists n, Py.sample_count 22050 15 11 = Some n /\ 1470 * 11 - 1 <= n <= 1470 * 11.
Proof. apply (X12_piper_fallback_length 11). lia. Defined.

Lemma X10_piper_hit_ignores_voice_witness :
  let out := [34; 86; 0; 0; 0; 0] in
  exists w1,
    HollyPiperVoice.generate (sample := Py.float) None (fun _ _ => PiperExit 0 out)
      (str_of "hi") (str_of "holly") true initial_world
    = (Ok ([S754_zero false], 22050), w1)
    /\ HollyPiperVoice.generate (sample := Py.float) None (fun _ _ => PiperTimeout)
         (str_of "hi") (str_of "molly") true w1
       = (Ok ([S754_zero false], 22050),
          World (cache w1) (fault w1) (errors w1)
                (stdout w1 ++ [CacheHit "49f68a5c8493ec2c0bf489821c21fc3b";
                               GeneratedCached])).
Proof.
  intros out.
  destruct (X10_piper_hit_ignores_voice (sample := Py.float) None
              (fun _ _ => PiperExit 0 out) (str_of "hi") (str_of "holly")
              initial_world "49f68a5c8493ec2c0bf489821c21fc3b" [104; 105] out
              [S754_zero false] 22050 out [S754_zero false] 22050)
    as (w1 & Hrun & _ & Hhit).
  - by vm_compute.
  - reflexivity.
  - reflexivity.
  - reflexivity.
  - reflexivity.
  - reflexivity.
  - reflexivity.
  - reflexivity.
  - exists w1. split; [exact Hrun|apply Hhit].
Defined.

(** A lone surrogate as the whole text: refused with the cache on,
    refused at the announcement under the default handler, and under
    [surrogateescape], which prints U+DC80, answered with silence
    without [piper] being run. *)
Lemma X11_piper_unencodable_text_witness :
  HollyPiperVoice.generate (sample := Py.float) None (fun _ _ => PiperTimeout)
    [0xD83D] (str_of "holly") true initial_world
  = (Exn UnicodeEncodeError, initial_world)
  /\ HollyPiperVoice.generate (sample := Py.float) None (fun _ _ => PiperTimeout)
       [0xD83D] (str_of "holly") false initial_world
     = (Exn UnicodeEncodeError, initial_world)
  /\ HollyPiperVoice.generate (sample := Py.float) None (fun _ _ => PiperTimeout)
       [0xDC80] (str_of "holly") false (World ∅ WriteOk SurrogateEscape [])
     = (Ok (np_zeros 1470, 22050),
        World ∅ WriteOk SurrogateEscape
              [Generating [0xDC80]; GenerationFailed UnicodeEncodeError]).
Proof.
  destruct (X11_piper_unencodable_text (sample := Py.float) None
              (fun _ _ => PiperTimeout) [0xD83D] (str_of "holly") initial_world
              eq_refl) as (Hkey & Hprint & _).
  destruct (X11_piper_unencodable_text (sample := Py.float) None
              (fun _ _ => PiperTimeout) [0xDC80] (str_of "holly")
              (World ∅ WriteOk SurrogateEscape []) eq_refl) as (_ & _ & Hcaught).
  split; [exact Hkey|]. split; [exact (Hprint eq_refl)|].
  apply (Hcaught eq_refl 1470). by vm_compute.
Defined.

Section FishV2Runs.
Context `{Audio R}.
Variable reference_audio : option (list R).
Variable engine_inference : pystr -> option (list R) -> option engine_result.

(** X13: in holly_fish_voice_v2.py the audio is taken from the result
    of the engine whether it is an attribute, a dictionary entry or
    the result itself.  When it is an array it is returned at 24000 Hz
    and, with caching on, handed to [_save_to_cache]; when it is not,
    [.astype] raises inside the [try] and the fallback tone is
    returned, with the cache directory left as it was. *)
Theorem X13_fish_v2_engine_result text voice w k r :
  HollyFishVoiceV2._get_cache_key text voice = Some k ->
  HollyFishVoice._load_from_cache (sample := R) k w = (Ok None, w) ->
  engine_inference text reference_audio = Some r ->
  let audio := match r with
               | HasAudioAttr a => a
               | DictWithAudio a => a
               | Plain a => a
               end in
  HollyFishVoiceV2.generate reference_audio engine_inference text voice true w
  = match audio with
    | Some a =>
        (Ok (a, 24000),
         (HollyFishVoice._save_to_cache k a 24000
            (World (cache w) (fault w) (errors w)
                   (stdout w ++ [Generating (take 50 text); EngineInference text; Generated]))).2)
    | None =>
        (Ok (HollyFishVoiceV2.fallback_beep, 24000),
         World (cache w) (fault w) (errors w)
               (stdout w ++ [Generating (take 50 text); EngineInference text;
                             GenerationFailed AttributeError; ReturningFallbackBeep]))
    end.
Proof.
  intros Hk Hl Hr audio. unfold HollyFishVoiceV2.generate.
  run. rewrite Hk. run. rewrite Hl. run.
  rewrite (fish_key_printable _ _ _ _ Hk). run. rewrite Hr. run.
  fold audio. destruct audio as [a|]; run.
  - repeat (rewrite <- (assoc_L (++)); simpl).
    match goal with |- context [HollyFishVoice._save_to_cache ?a ?b ?c ?d] =>
      destruct (save_total a b c d) as (dir & out & ->) end.
    done.
  - by repeat (rewrite <- (assoc_L (++)); simpl).
Qed.

End FishV2Runs.

Lemma X13_fish_v2_engine_result_witness :
  HollyFishVoiceV2.generate None (fun _ _ => Some (Plain None))
    (str_of "hi") (str_of "holly") true initial_world
  = (Ok (HollyFishVoiceV2.fallback_beep, 24000),
     World ∅ WriteOk Strict
           [Generating (str_of "hi"); EngineInference (str_of "hi");
            GenerationFailed AttributeError; ReturningFallbackBeep]).
Proof.
  apply (X13_fish_v2_engine_result None (fun _ _ => Some (Plain None))
           (str_of "hi") (str_of "holly") initial_world
           "4208c7e3f6c152d0b0ba3f076b85e781" (Plain None)).
  - by vm_compute.
  - reflexivity.
  - reflexivity.
Defined.

(* ===================================================================== *)
(** * Start-up of the piper backend *)
(* ===================================================================== *)

Section PiperStartupFacts.
Import PiperStartup.
Variable network : string -> fetch.

Lemma model_config_distinct : model_file <> config_file.
Proof. discriminate. Qed.

(** Whether [_download_model] leaves [self.model_path] unset. *)
Lemma download_model_path (h : piper_host) :
  (_download_model network h).1 = None
  <-> ~ (is_Some (model_dir h !! model_file)
         /\ is_Some (model_dir h !! config_file))
      /\ ((exists l, network base_url = FetchFailed l)
          \/ (exists l, network config_url = FetchFailed l)).
Proof.
  unfold _download_model.
  destruct (bool_decide (is_Some (model_dir h !! model_file))
            && bool_decide (is_Some (model_dir h !! config_file))) eqn:Hboth.
  - apply andb_true_iff in Hboth as [Hm Hc].
    apply bool_decide_eq_true in Hm. apply bool_decide_eq_true in Hc.
    split; [done|]. intros [Hn _]. by destruct Hn.
  - assert (~ (is_Some (model_dir h !! model_file)
               /\ is_Some (model_dir h !! config_file))) as Hnb.
    { intros [Hm Hc]. by rewrite !bool_decide_eq_true_2 in Hboth. }
    unfold urlretrieve, log. cbn [model_dir startup_log].
    destruct (network base_url) as [m|[part|]]; cbn [model_dir startup_log fst].
    + destruct (network config_url) as [c|[part|]]; cbn [fst].
      * split; [done|]. intros [_ [[? ?]|[? ?]]]; done.
      * split; [|done]. intros _. split; [done|]. right; eauto.
      * split; [|done]. intros _. split; [done|]. right; eauto.
    + split; [|done]. intros _. split; [done|]. left; eauto.
    + split; [|done]. intros _. split; [done|]. left; eauto.
Qed.

(** X14: [_download_model] never raises and fetches at most the two
    files, the model first.  When both files are present it fetches
    nothing and trusts them as they are.  Otherwise [self.model_path]
    is set exactly when both downloads succeed, and then the directory
    holds what was fetched; a failed model download stops before the
    configuration is requested. *)
Theorem X14_download_model_outcome (h : piper_host) :
  let '(path, h') := _download_model network h in
  if bool_decide (is_Some (model_dir h !! model_file))
     && bool_decide (is_Some (model_dir h !! config_file))
  then path = Some model_file_path
       /\ model_dir h' = model_dir h
       /\ startup_log h' = startup_log h ++ [ModelAlreadyDownloaded]
  else
    match network base_url, network config_url with
    | Fetched m, Fetched c =>
        path = Some model_file_path
        /\ model_dir h' !! model_file = Some m
        /\ model_dir h' !! config_file = Some c
        /\ startup_log h'
           = startup_log h ++ [DownloadingModel; DownloadingVoiceModel;
                               UrlRetrieve base_url; DownloadingConfig;
                               UrlRetrieve config_url; ModelDownloaded]
    | Fetched m, FetchFailed _ =>
        path = None
        /\ model_dir h' !! model_file = Some m
        /\ startup_log h'
           = startup_log h ++ [DownloadingModel; DownloadingVoiceModel;
                               UrlRetrieve base_url; DownloadingConfig;
                               UrlRetrieve config_url; ModelDownloadFailed OSError]
    | FetchFailed _, _ =>
        path = None
        /\ model_dir h' !! config_file = model_dir h !! config_file
        /\ startup_log h'
           = startup_log h ++ [DownloadingModel; DownloadingVoiceModel;
                               UrlRetrieve base_url; ModelDownloadFailed OSError]
    end.
Proof.
  unfold _download_model.
  destruct (bool_decide (is_Some (model_dir h !! model_file))
            && bool_decide (is_Some (model_dir h !! config_file))); [done|].
  unfold urlretrieve, log. cbn [model_dir startup_log].
  destruct (network base_url) as [m|[part|]]; cbn [model_dir startup_log].
  - destruct (network config_url) as [c|[part|]]; cbn [model_dir startup_log];
      rewrite <- ?(assoc_L (++)); repeat split; try done.
    + rewrite lookup_insert_ne by (symmetry; apply model_config_distinct).
      apply lookup_insert_eq.
    + apply lookup_insert_eq.
    + rewrite lookup_insert_ne by (symmetry; apply model_config_distinct).
      apply lookup_insert_eq.
    + apply lookup_insert_eq.
  - rewrite <- ?(assoc_L (++)). repeat split; try done.
    apply lookup_insert_ne, model_config_distinct.
  - rewrite <- ?(assoc_L (++)). repeat split; done.
Qed.

(** X15: the backend object is built once per process, and what the
    first start-up found is kept.  After the first [get_holly_voice],
    every later call returns the same object without printing,
    fetching or touching a file, whatever the network does by then:
    a download that failed at first use is never tried again. *)
Theorem X15_backend_is_built_once (p : process) :
  _holly_voice_instance p = None ->
  let '(v, p1) := get_holly_voice network p in
  _holly_voice_instance p1 = Some v
  /\ (model_path v = None
      <-> ~ (is_Some (model_dir (host p) !! model_file)
             /\ is_Some (model_dir (host p) !! config_file))
          /\ ((exists l, network base_url = FetchFailed l)
              \/ (exists l, network config_url = FetchFailed l)))
  /\ forall network', get_holly_voice network' p1 = (v, p1).
Proof.
  intros Hnone. unfold get_holly_voice. rewrite Hnone. unfold __init__.
  pose proof (download_model_path (log Initializing (host p))) as Hd.
  destruct (_download_model network (log Initializing (host p))) as [path h'].
  cbn [_holly_voice_instance model_path]. split; [done|]. split; [|done].
  exact Hd.
Qed.

End PiperStartupFacts.

(** A network on which the model arrives and the configuration does
    not, and one on which everything arrives. *)
Lemma X14_download_model_outcome_witness :
  let network := fun url =>
    if String.eqb url PiperStartup.base_url then Fetched [79; 78; 78; 88]
    else FetchFailed None in
  (PiperStartup._download_model network (PiperHost ∅ [])).1 = None
  /\ model_dir (PiperStartup._download_model network (PiperHost ∅ [])).2
       !! PiperStartup.model_file = Some [79; 78; 78; 88].
Proof.
  intros network.
  pose proof (X14_download_model_outcome network (PiperHost ∅ [])) as Hd.
  destruct (PiperStartup._download_model network (PiperHost ∅ [])) as [path h'].
  change (bool_decide (is_Some (model_dir (PiperHost ∅ []) !! PiperStartup.model_file))
          && bool_decide (is_Some (model_dir (PiperHost ∅ []) !! PiperStartup.config_file)))
    with false in Hd.
  change (network PiperStartup.base_url) with (Fetched [79; 78; 78; 88]) in Hd.
  change (network PiperStartup.config_url) with (FetchFailed None) in Hd.
  destruct Hd as (Hp & Hm & _). split; [exact Hp|exact Hm].
Defined.

Lemma X15_backend_is_built_once_witness :
  let offline := fun _ : string => FetchFailed None in
  let online := fun _ : string => Fetched [79; 78; 78; 88] in
  let r := PiperStartup.get_holly_voice offline
             (PiperStartup.Process None (PiperHost ∅ [])) in
  PiperStartup.get_holly_voice online r.2 = (r.1, r.2).
Proof.
  intros offline online r.
  pose proof (X15_backend_is_built_once offline
                (PiperStartup.Process None (PiperHost ∅ [])) eq_refl) as Hb.
  fold r in Hb. destruct r as [v p1]. destruct Hb as (_ & _ & Hsame).
  apply Hsame.
Defined.

(* ===================================================================== *)
(** * The service of app.py *)
(* ===================================================================== *)

Section AppFacts.
Import App.
Variable torch_cuda : option bool.

Lemma get_generator_cases (s : server) :
  let '(v, s1) := get_generator torch_cuda s in
  holly_voice s1 = Some v
  /\ backend s1 = backend s
  /\ (holly_voice s = None -> _holly_voice_instance s1 = Some v)
  /\ (console s1 = console s
      \/ (holly_voice s = None /\ _holly_voice_instance s = None
          /\ device v = (if _check_cuda torch_cuda then "cuda" else "cpu")%string
          /\ console s1
             = console s ++ [FishInitializing; ModelLoaded; VoiceHolly;
                             FishReady (device v);
                             CacheAt HollyFishVoice.CACHE_DIR])).
Proof.
  unfold get_generator, get_holly_voice, __init__, say.
  destruct s as [[v0|] [v1|] w out]; cbn; repeat split; try done; try (by left).
  right. repeat split; try done. by rewrite <- !(assoc_L (++)).
Qed.

(** X16: the generator is built at the first request that needs it and
    never again.  Once [get_generator] has returned, every later
    [get_generator] and [GET /health] returns the same object and
    leaves the process as it is, without printing and without asking
    torch again: the device chosen at first use is kept even if CUDA
    becomes available later. *)
Theorem X16_generator_is_built_once (s : server) :
  let '(v, s1) := get_generator torch_cuda s in
  forall torch_cuda',
    get_generator torch_cuda' s1 = (v, s1)
    /\ health_check torch_cuda' s1 = (Health "healthy" true (device v), s1)
    /\ backend s1 = backend s.
Proof.
  pose proof (get_generator_cases s) as Hg.
  destruct (get_generator torch_cuda s) as [v s1].
  destruct Hg as (Hv & Hb & _). intros torch_cuda'.
  unfold health_check, get_generator. by rewrite Hv.
Qed.

Section Endpoint.
Context {sample : Type} `{Audio sample}.

(** X17: [POST /generate] without caching ([use_cache] false or null)
    on a text of 1 to 5000 characters never touches the cache
    directory.  When standard output accepts the first 50 characters
    of the text, the answer is the WAV encoding of
    int(24000 * (len(text) / 20)) zeros (1200 per character, or one
    sample fewer) with the sample-rate header 24000, or 500 when that
    encoding is refused.  When standard output refuses them, the
    announcement that [generate] prints before its [try] raises, and
    the answer is 500 with nothing printed by the backend. *)
Theorem X17_generate_endpoint_without_cache (request : tts_request) (s : server) :
  valid request = true ->
  truthy (use_cache request) = false ->
  exists n,
    Py.sample_count 24000 20 (Z.of_nat (List.length (text request))) = Some n
    /\ 1200 * Z.of_nat (List.length (text request)) - 1 <= n
       <= 1200 * Z.of_nat (List.length (text request))
    /\ let '(resp, s1) := generate_tts (sample := sample) torch_cuda request s in
       cache (backend s1) = cache (backend s)
       /\ if stdout_accepts (errors (backend s)) (take 50 (text request))
          then resp = match sf_encode (np_zeros (sample := sample) n) 24000 with
                      | Some wav_bytes => Wav wav_bytes 24000 (Py.truediv n 24000)
                      | None => HTTPException 500 (Backend LibsndfileError)
                      end
          else resp = HTTPException 500 (Backend UnicodeEncodeError)
               /\ backend s1 = backend s.
Proof.
  intros Hvalid Hnc. unfold valid in Hvalid.
  apply andb_true_iff in Hvalid as [Hlo Hhi].
  apply Nat.leb_le in Hlo. apply Nat.leb_le in Hhi.
  destruct (sample_count_24000_bounds (Z.of_nat (List.length (text request))))
    as (n & Hn & Hb); [lia|].
  exists n. split; [done|]. split; [done|].
  unfold generate_tts.
  pose proof (get_generator_cases s) as Hg.
  destruct (get_generator torch_cuda s) as [v s0]. destruct Hg as (_ & Hback & _).
  rewrite Hnc, Hback.
  destruct (stdout_accepts (errors (backend s)) (take 50 (text request))) eqn:Hout.
  - rewrite (fish_generate_nocache _ _ _ _ Hout Hn).
    assert (Z.of_nat (List.length (np_zeros (sample := sample) n)) = n) as Hlen.
    { unfold np_zeros. rewrite repeat_length. lia. }
    destruct (sf_encode (np_zeros n) 24000) as [wav_bytes|];
      cbn [Z.eqb Pos.eqb say backend cache]; rewrite ?Hlen; done.
  - rewrite (fish_generate_unannounced _ _ _ Hout).
    cbn [say backend cache]. done.
Qed.

(** X18: with caching on, [POST /generate] answers 500 when the text
    or the voice cannot be encoded to UTF-8, having left the backend
    as it was; a null voice is keyed as the text None, so a request
    with the voice None and a request without a voice share their
    cache entry. *)
Theorem X18_generate_endpoint_key (request : tts_request) (s : server) :
  use_cache request = Some true ->
  (encode_utf8 (text request ++ str_of ":" ++ voice_text (voice_field request)) = None ->
   let '(resp, s1) := generate_tts (sample := sample) torch_cuda request s in
   resp = HTTPException 500 (Backend UnicodeEncodeError)
   /\ backend s1 = backend s)
  /\ (voice_field request = None ->
      HollyFishVoice._get_cache_key (text request) (voice_text (voice_field request))
      = HollyFishVoice._get_cache_key (text request) (str_of "None")
      /\ generate_tts (sample := sample) torch_cuda request s
         = generate_tts (sample := sample) torch_cuda
             (TTSRequest (text request) (Some (str_of "None")) (use_cache request)) s).
Proof.
  intros Huc. split.
  - intros Henc. unfold generate_tts.
    pose proof (get_generator_cases s) as Hg.
    destruct (get_generator torch_cuda s) as [v s0]. destruct Hg as (_ & Hback & _).
    rewrite Huc. cbn [truthy].
    unfold HollyFishVoice.generate, HollyFishVoice._get_cache_key. run.
    rewrite Henc. run. done.
  - intros Hv. unfold generate_tts. cbn [text voice_field use_cache].
    by rewrite Hv.
Qed.

End Endpoint.

End AppFacts.

Lemma X16_generator_is_built_once_witness :
  let s := App.Server None None initial_world [] in
  App.health_check (Some true) (App.get_generator None s).2
  = (App.Health "healthy" true "cpu", (App.get_generator None s).2).
Proof.
  intros s.
  pose proof (X16_generator_is_built_once None s) as Hg.
  destruct (App.get_generator None s) as [v s1] eqn:Hr.
  destruct (Hg (Some true)) as (_ & Hh & _).
  cbn [snd]. rewrite Hh.
  injection Hr as <- _. reflexivity.
Defined.

Lemma X17_generate_endpoint_without_cache_witness :
  let s := App.Server None None initial_world [] in
  (exists wav_bytes,
     (App.generate_tts (sample := Py.float) None
        (App.TTSRequest (str_of "hi") None (Some false)) s).1
     = App.Wav wav_bytes 24000 (Py.truediv 2400 24000))
  /\ (App.generate_tts (sample := Py.float) None
        (App.TTSRequest [0xD800] None (Some false)) s).1
     = App.HTTPException 500 (App.Backend UnicodeEncodeError).
Proof.
  intros s. split.
  - destruct (X17_generate_endpoint_without_cache (sample := Py.float) None
                (App.TTSRequest (str_of "hi") None (Some false)) s)
      as (n & Hn & _ & Hresp); [reflexivity|reflexivity|].
    assert (n = 2400) as -> by (vm_compute in Hn; congruence).
    destruct (App.generate_tts (sample := Py.float) None
                (App.TTSRequest (str_of "hi") None (Some false)) s) as [resp s1].
    destruct Hresp as [_ Hresp]. cbn in Hresp. eexists. exact Hresp.
  - destruct (X17_generate_endpoint_without_cache (sample := Py.float) None
                (App.TTSRequest [0xD800] None (Some false)) s)
      as (n & _ & _ & Hresp); [reflexivity|reflexivity|].
    destruct (App.generate_tts (sample := Py.float) None
                (App.TTSRequest [0xD800] None (Some false)) s) as [resp s1].
    destruct Hresp as [_ Hresp]. cbn in Hresp. exact (proj1 Hresp).
Defined.

Lemma X18_generate_endpoint_key_witness :
  let request := App.TTSRequest [0xD800] None (Some true) in
  let s := App.Server None None initial_world [] in
  (App.generate_tts (sample := Py.float) None request s).1
  = App.HTTPException 500 (App.Backend UnicodeEncodeError).
Proof.
  intros request s.
  destruct (X18_generate_endpoint_key (sample := Py.float) None request s eq_refl)
    as [Herr _].
  specialize (Herr eq_refl).
  destruct (App.generate_tts (sample := Py.float) None request s) as [resp s1].
  exact (proj1 Herr).
Defined.

Section AppCache.
Import App.
Variable torch_cuda : option bool.

(** X22: over the service, [POST /cache/clear] always answers success,
    and a [GET /cache/stats] that follows reports no entry and 0.0 MB
    whatever the directory held; files that are not [*.wav] are still
    there. *)
Theorem X22_clear_then_stats_over_the_service (s : server) :
  let '(r1, s1) := clear_cache torch_cuda s in
  r1 = Cleared true
  /\ (forall name, ~ ends_in_wav name ->
        cache (backend s1) !! name = cache (backend s) !! name)
  /\ forall torch_cuda',
       (cache_stats torch_cuda' s1).1
       = Stats {| cached_phrases := 0;
                  total_size_mb := S754_zero false;
                  cache_dir := HollyFishVoice.CACHE_DIR |}.
Proof.
  unfold clear_cache.
  pose proof (get_generator_cases torch_cuda s) as Hg.
  destruct (get_generator torch_cuda s) as [v s0]. destruct Hg as (Hv & Hback & _).
  rewrite clear_cache_spec. split; [done|]. cbn [backend cache]. split.
  - intros name Hn. rewrite cleared_lookup, Hback.
    destruct (is_wav name) eqn:E; [|done]. by apply is_wav_iff in E.
  - intros torch_cuda'. unfold cache_stats, get_generator.
    cbn [holly_voice]. rewrite Hv.
    unfold HollyFishVoice.get_cache_stats. cbn [backend cache fst].
    by rewrite glob_wav_cleared.
Qed.

End AppCache.

Lemma X22_clear_then_stats_over_the_service_witness :
  let s := App.Server None None
             (World {[ "0cc175b9.wav"%string := [82; 73; 70; 70] ]} WriteOk Strict []) [] in
  (App.clear_cache None s).1 = App.Cleared true.
Proof.
  intros s.
  pose proof (X22_clear_then_stats_over_the_service None s) as Hx.
  destruct (App.clear_cache None s) as [r1 s1]. exact (proj1 Hx).
Defined.

(* ===================================================================== *)
(** * The gtts backend *)
(* ===================================================================== *)

(** A 16-bit sample is normalised exactly: the float32 result lies in
    [-1, 1) and gives the sample back when multiplied by 32768. *)
Lemma normalize_int16 v :
  -32768 <= v < 32768 ->
  SFleb (F32.of_int (-1)) (GTTS.normalize v) = true
  /\ SFltb (GTTS.normalize v) (F32.of_int 1) = true
  /\ Py.int (F32.mul (GTTS.normalize v) (F32.of_int 32768)) = Some v.
Proof.
  intros Hv.
  pose (check := fun v =>
          let x := GTTS.normalize v in
          SFleb (F32.of_int (-1)) x && SFltb x (F32.of_int 1)
          && match Py.int (F32.mul x (F32.of_int 32768)) with
             | Some u => u =? v
             | None => false
             end).
  assert (all_from check (Z.to_nat 65536) (-32768) = true) as Hall
    by (vm_compute; reflexivity).
  pose proof (all_from_spec check _ _ Hall v) as Hc.
  rewrite Z2Nat.id in Hc by lia. specialize (Hc ltac:(lia)). unfold check in Hc.
  cbv zeta in Hc.
  apply andb_true_iff in Hc as [Hc H3]. apply andb_true_iff in Hc as [H1 H2].
  split; [done|]. split; [done|].
  destruct (Py.int _) as [u|]; [|done]. apply Z.eqb_eq in H3. by subst.
Qed.

Section GttsRuns.
Context `{Audio spec_float}.
Variable gtts_save : pystr -> result (list Z).
Variable from_mp3 : list Z -> result audio_segment.
Implicit Types (w : world) (text voice : pystr).

(** X19: when the request reaches synthesis, standard output accepts
    the first 50 characters of the text and gTTS produced an MP3 that
    libsndfile cannot read, the gtts backend decodes it with pydub: it returns one float32 sample
    per frame at the frame rate of the file, and with caching on hands
    that audio to [_save_to_cache] under the key of the text.  A mono
    file of 16-bit samples is normalised exactly, every sample in
    [-1, 1). *)
Theorem X19_gtts_pydub_fallback text voice use_cache w mp3 sound :
  reaches_synthesis (sample := spec_float)
    (HollyGTTSVoice._get_cache_key text) use_cache w ->
  stdout_accepts (errors w) (take 50 text) = true ->
  gtts_save text = Ok mp3 ->
  sf_decode mp3 = None ->
  from_mp3 mp3 = Ok sound ->
  let audio := (GTTS.from_segment sound).1 in
  let rate := (GTTS.from_segment sound).2 in
  (exists w1,
     GTTS.generate gtts_save from_mp3 text voice use_cache w = (Ok (audio, rate), w1)
     /\ w1 = match (if use_cache then HollyGTTSVoice._get_cache_key text else None) with
             | Some k =>
                 (HollyFishVoice._save_to_cache k audio rate
                    (World (cache w) (fault w) (errors w)
                           (stdout w ++ [Generating (take 50 text); Generated]))).2
             | None => World (cache w) (fault w) (errors w)
                             (stdout w ++ [Generating (take 50 text); Generated])
             end)
  /\ match sound with
     | Mono frame_rate samples =>
         rate = frame_rate
         /\ List.length audio = List.length samples
         /\ (Forall (fun v => -32768 <= v < 32768) samples ->
             Forall2 (fun v x =>
                        SFleb (F32.of_int (-1)) x = true
                        /\ SFltb x (F32.of_int 1) = true
                        /\ Py.int (F32.mul x (F32.of_int 32768)) = Some v)
                     samples audio)
     | Stereo frame_rate frames =>
         rate = frame_rate /\ List.length audio = List.length frames
     end.
Proof.
  intros Hreach Hout Hsave Hdec Hpydub audio rate. split.
  - unfold GTTS.generate.
    destruct Hreach as [->|(-> & k & Hk & Hl)].
    + run. rewrite Hout. run. rewrite Hsave. run. rewrite Hdec. run. rewrite Hpydub. run.
      fold audio rate. destruct (GTTS.from_segment sound) as [a r] eqn:Hseg.
      eexists. split; [|done]. run. subst audio rate.
      by repeat (rewrite <- (assoc_L (++)); simpl).
    + run. rewrite Hk. run. rewrite Hl. run. rewrite Hout. run.
      rewrite Hsave. run. rewrite Hdec. run.
      rewrite Hpydub. run.
      destruct (GTTS.from_segment sound) as [a r] eqn:Hseg. subst audio rate.
      cbn [fst snd]. run. repeat (rewrite <- (assoc_L (++)); simpl).
      match goal with |- context [HollyFishVoice._save_to_cache ?a ?b ?c ?d] =>
        destruct (save_total a b c d) as (dir & out & Hs) end.
      rewrite Hs. eexists. split; done.
  - subst audio rate. destruct sound as [fr samples|fr frames]; cbn [GTTS.from_segment fst snd].
    + split; [done|]. split; [by rewrite length_fmap|].
      intros Hrange. apply Forall2_fmap_r, Forall_Forall2_diag.
      eapply Forall_impl; [exact Hrange|]. intros v Hv. by apply normalize_int16.
    + split; [done|]. by rewrite length_fmap.
Qed.

(** X20: when the request reaches synthesis, standard output accepts
    the first 50 characters of the text, and gTTS raises or neither
    libsndfile nor pydub can decode its MP3, the gtts backend does not
    raise: it prints the
    failure and returns int(24000 * (len(text) / 15)) zeros at
    24000 Hz, for texts of at most 5000 characters 1600 per character
    or one sample fewer, and leaves the cache directory as it was. *)
Theorem X20_gtts_failure_returns_silence text voice use_cache w :
  reaches_synthesis (sample := spec_float)
    (HollyGTTSVoice._get_cache_key text) use_cache w ->
  stdout_accepts (errors w) (take 50 text) = true ->
  ((exists e, gtts_save text = Exn e)
   \/ exists mp3 e, gtts_save text = Ok mp3
                    /\ sf_decode mp3 = None /\ from_mp3 mp3 = Exn e) ->
  (List.length text <= 5000)%nat ->
  exists n e,
    Py.sample_count 24000 15 (Z.of_nat (List.length text)) = Some n
    /\ 1600 * Z.of_nat (List.length text) - 1 <= n <= 1600 * Z.of_nat (List.length text)
    /\ GTTS.generate gtts_save from_mp3 text voice use_cache w
       = (Ok (np_zeros n, 24000),
          World (cache w) (fault w) (errors w)
                (stdout w ++ [Generating (take 50 text); GenerationFailed e])).
Proof.
  intros Hreach Hout Hfail Hlen.
  assert (exists n, Py.sample_count 24000 15 (Z.of_nat (List.length text)) = Some n
                    /\ 1600 * Z.of_nat (List.length text) - 1 <= n
                       <= 1600 * Z.of_nat (List.length text)) as (n & Hn & Hb).
  { pose (check := fun len =>
            match Py.sample_count 24000 15 len with
            | Some n => (1600 * len - 1 <=? n) && (n <=? 1600 * len)
            | None => false
            end).
    assert (all_from check (Z.to_nat 5001) 0 = true) as Hall by (vm_compute; reflexivity).
    pose proof (all_from_spec check _ 0 Hall (Z.of_nat (List.length text))) as Hc.
    rewrite Z2Nat.id in Hc by lia. specialize (Hc ltac:(lia)). unfold check in Hc.
    destruct (Py.sample_count 24000 15 _) as [n|]; [|discriminate].
    exists n. split; [done|].
    apply andb_true_iff in Hc as [H1 H2].
    apply Z.leb_le in H1. apply Z.leb_le in H2. lia. }
  exists n.
  assert (exists e, forall w0,
    (mp3 ← (fun w => (gtts_save text, w));
     try_except (lift LibsndfileError (sf_decode mp3))
       (fun _ => sound ← (fun w => (from_mp3 mp3, w)); mret (GTTS.from_segment sound))) w0
    = (Exn e, w0)) as [e He].
  { destruct Hfail as [[e Hs]|(mp3 & e & Hs & Hd & Hp)]; exists e; intros w0; run.
    - by rewrite Hs.
    - rewrite Hs, Hd. run. by rewrite Hp. }
  exists e. split; [done|]. split; [done|].
  unfold GTTS.generate.
  destruct Hreach as [->|(-> & k & Hk & Hl)].
  - run. rewrite Hout. run.
    specialize (He (World (cache w) (fault w) (errors w)
                          (stdout w ++ [Generating (take 50 text)]))).
    destruct (gtts_save text) as [mp3|e0]; run.
    + destruct (sf_decode mp3) as [r|]; run; [discriminate He|].
      destruct (from_mp3 mp3) as [sound|e1]; run; [discriminate He|].
      injection He as ->. rewrite Hn. run. by rewrite <- (assoc_L (++)).
    + injection He as ->. rewrite Hn. run. by rewrite <- (assoc_L (++)).
  - run. rewrite Hk. run. rewrite Hl. run. rewrite Hout. run.
    specialize (He (World (cache w) (fault w) (errors w)
                          (stdout w ++ [Generating (take 50 text)]))).
    destruct (gtts_save text) as [mp3|e0]; run.
    + destruct (sf_decode mp3) as [r|]; run; [discriminate He|].
      destruct (from_mp3 mp3) as [sound|e1]; run; [discriminate He|].
      injection He as ->. rewrite Hn. run. by rewrite <- (assoc_L (++)).
    + injection He as ->. rewrite Hn. run. by rewrite <- (assoc_L (++)).
Qed.

End GttsRuns.

Lemma X19_gtts_pydub_fallback_witness :
  let sound := Mono 24000 [16384; -32768] in
  exists w1,
    GTTS.generate (H := ToyWav.audio) (fun _ => Ok [73; 68; 51])
      (fun _ => Ok sound) (str_of "hi") (str_of "holly") false initial_world
    = (Ok ((GTTS.from_segment sound).1, 24000), w1).
Proof.
  intros sound.
  destruct (X19_gtts_pydub_fallback (H := ToyWav.audio) (fun _ => Ok [73; 68; 51])
              (fun _ => Ok sound) (str_of "hi") (str_of "holly") false
              initial_world [73; 68; 51] sound)
    as [(w1 & Hrun & _) _].
  - by left.
  - reflexivity.
  - reflexivity.
  - reflexivity.
  - reflexivity.
  - exists w1. exact Hrun.
Defined.

Lemma X20_gtts_failure_returns_silence_witness :
  exists n e,
    GTTS.generate (H := ToyWav.audio) (fun _ => Exn RequestException)
      (fun _ => Exn OSError) (str_of "hi") (str_of "holly") false initial_world
    = (Ok (np_zeros n, 24000),
       World ∅ WriteOk Strict [Generating (str_of "hi"); GenerationFailed e]).
Proof.
  destruct (X20_gtts_failure_returns_silence (H := ToyWav.audio)
              (fun _ => Exn RequestException) (fun _ => Exn OSError)
              (str_of "hi") (str_of "holly") false initial_world)
    as (n & e & _ & _ & Hrun).
  - by left.
  - reflexivity.
  - left. by exists RequestException.
  - simpl. lia.
  - exists n, e. exact Hrun.
Defined.

(* ===================================================================== *)
(** * Start-up of the fish-v2 backend *)
(* ===================================================================== *)

Section FishV2StartupFacts.
Import FishV2Startup.
Context `{Audio R}.
Variable cuda_available : bool.
Variables (LLAMA_CHECKPOINT DECODER_CHECKPOINT : option string).
Variable load_engine : string -> string -> string -> bool -> option engine.
Variable snapshot_download : bool.

Let dev : string := if cuda_available then "cuda" else "cpu".
Let llama : string := getenv LLAMA_CHECKPOINT DEFAULT_CHECKPOINT.
Let decoder : string := getenv DECODER_CHECKPOINT DEFAULT_CHECKPOINT.


End FishV2StartupFacts.


(* ===================================================================== *)
(** * The announcement printed before the [try] *)
(* ===================================================================== *)

Section Announcement.
Context {sample : Type} {audio : Audio sample}.
Context {audio_r : Audio R} {audio_f32 : Audio spec_float}.
Variables (api_key : option pystr) (voice_id : pystr).
Variable requests_post : pystr -> pystr -> http_result.
Variable model_path : option string.
Variable subprocess_run : option string -> list Z -> piper_result.
Variable reference_audio : option (list R).
Variable engine_inference : pystr -> option (list R) -> option engine_result.
Variable gtts_save : pystr -> result (list Z).
Variable from_mp3 : list Z -> result audio_segment.

(** What standard output refuses, UTF-8 refuses. *)
Lemma refused_not_encodable h text voice :
  stdout_accepts h (take 50 text) = false ->
  encode_utf8 text = None /\ encode_utf8 (text ++ str_of ":" ++ voice) = None.
Proof.
  intros Hout. split.
  - destruct (encode_utf8 text) as [b|] eqn:Hb; [|done].
    pose proof (text_printable h _ _ Hb) as Hp.
    unfold stdout_accepts in Hout. congruence.
  - destruct (encode_utf8 (text ++ str_of ":" ++ voice)) as [b|] eqn:Hb; [|done].
    assert (HollyFishVoice._get_cache_key text voice = Some (MD5.hexdigest b)) as Hk
      by (unfold HollyFishVoice._get_cache_key; by rewrite Hb).
    pose proof (fish_key_printable h _ _ _ Hk) as Hp.
    unfold stdout_accepts in Hout. congruence.
Qed.

(** X23: every backend prints the first 50 characters of the text
    before its [try].  When standard output refuses them, [generate]
    raises UnicodeEncodeError whatever [use_cache] is (with the cache
    on, already from the computation of the key): nothing is printed,
    no file is touched, and neither the endpoint, nor [piper], nor the
    inference engine, nor gTTS is called, so no fallback audio is
    returned. *)
Theorem X23_refused_announcement_raises text voice use_cache w :
  stdout_accepts (errors w) (take 50 text) = false ->
  HollyFishVoice.generate (sample := sample) text voice use_cache w
  = (Exn UnicodeEncodeError, w)
  /\ HollyFishVoiceCloud.generate (sample := sample) api_key voice_id requests_post
       text voice use_cache w
     = (Exn UnicodeEncodeError, w)
  /\ HollyPiperVoice.generate (sample := sample) model_path subprocess_run
       text voice use_cache w
     = (Exn UnicodeEncodeError, w)
  /\ HollyFishVoiceV2.generate reference_audio engine_inference text voice use_cache w
     = (Exn UnicodeEncodeError, w)
  /\ GTTS.generate gtts_save from_mp3 text voice use_cache w
     = (Exn UnicodeEncodeError, w).
Proof.
  intros Hout.
  destruct (refused_not_encodable _ _ voice Hout) as [Htext Hkey].
  unfold HollyFishVoice.generate, HollyFishVoiceCloud.generate,
    HollyPiperVoice.generate, HollyFishVoiceV2.generate, GTTS.generate,
    HollyFishVoiceCloud._get_cache_key, HollyFishVoiceV2._get_cache_key,
    HollyFishVoice._get_cache_key, HollyPiperVoice._get_cache_key,
    HollyGTTSVoice._get_cache_key.
  destruct use_cache; run; rewrite ?Htext, ?Hkey; run; rewrite ?Hout; done.
Qed.

End Announcement.

Lemma X23_refused_announcement_raises_witness :
  HollyFishVoiceCloud.generate (sample := Py.float) (Some (str_of "secret"))
    (str_of "default_female_voice") (fun _ _ => HttpResponse 500 [])
    [0xD800] (str_of "holly") false initial_world
  = (Exn UnicodeEncodeError, initial_world)
  /\ HollyFishVoiceV2.generate None (fun _ _ => None)
       [0xD800] (str_of "holly") false initial_world
     = (Exn UnicodeEncodeError, initial_world).
Proof.
  destruct (X23_refused_announcement_raises (sample := Py.float)
              (audio_f32 := ToyWav.audio)
              (Some (str_of "secret")) (str_of "default_female_voice")
              (fun _ _ => HttpResponse 500 []) None (fun _ _ => PiperTimeout)
              None (fun _ _ => None) (fun _ => Exn RequestException)
              (fun _ => Exn OSError)
              [0xD800] (str_of "holly") false initial_world eq_refl)
    as (_ & Hcloud & _ & Hv2 & _).
  split; [exact Hcloud|exact Hv2].
Defined.
